(** * Trivia API: the Flask request handlers of [backend/flaskr/__init__.py]

    A shallow embedding of the handlers ([get_categories], [get_questions],
    [delete_a_question], [add_question], [questions_in_a_category],
    [play_quizzes]) and of the helper [paginate_questions], followed by the
    properties of the specification that they do, or do not, satisfy.

    Python values that come out of a JSON body are kept dynamically typed
    ([pyval]); a view function is a function from the database (and the
    request) to a [result]: a returned value, an [abort(code)], or an uncaught
    Python exception.  Handlers that write to the database return the new
    database next to their result. *)

From Stdlib Require Import ZArith Lia Ascii String.
From stdpp Require Import base numbers option list strings gmap sorting pretty.

Local Open Scope Z_scope.

(** ** Python values and their dynamic operations *)

(** The JSON documents [request.get_json()] can produce.  JSON numbers are
    restricted to integers. *)
#[warnings="-register-all"]
Inductive pyval : Type :=
  | VNone
  | VBool (b : bool)
  | VInt (n : Z)
  | VStr (s : string)
  | VList (l : list pyval)
  | VDict (d : gmap string pyval).

Inductive exn : Type :=
  | TypeError
  | KeyError
  | AttributeError
  | IndexError
  | MultipleResultsFound
  | IntegrityError
  | ProgrammingError
  | DataError.

(** The outcome of running (part of) a view function. *)
Inductive result (A : Type) : Type :=
  | Return (a : A)
  | Abort (status : Z)
  | Raise (e : exn).
Arguments Return {A} a.
Arguments Abort {A} status.
Arguments Raise {A} e.

(** Truth value of an object in a condition ([if search_term:]). *)
Definition py_truthy (v : pyval) : bool :=
  match v with
  | VNone => false
  | VBool b => b
  | VInt n => negb (n =? 0)
  | VStr s => negb (bool_decide (s = EmptyString))
  | VList l => negb (bool_decide (l = []))
  | VDict d => negb (bool_decide (size d = 0%nat))
  end.

(** [body.get(key, None)]: only a dict has the method. *)
Definition py_get (body : pyval) (key : string) : result pyval :=
  match body with
  | VDict d => Return (default VNone (d !! key))
  | _ => Raise AttributeError
  end.

(** [obj[key]] with a string key. *)
Definition py_getitem (obj : pyval) (key : string) : result pyval :=
  match obj with
  | VDict d =>
      match d !! key with
      | Some v => Return v
      | None => Raise KeyError
      end
  | _ => Raise TypeError
  end.

(** [v == n] for an integer [n]: [True] and [False] compare as 1 and 0, and
    no string, list, dict or [None] equals an integer. *)
Definition py_eq_int (v : pyval) (n : Z) : bool :=
  match v with
  | VInt m => m =? n
  | VBool b => Z.b2z b =? n
  | _ => false
  end.

(** [n in container] for an integer [n]. *)
Definition py_in (n : Z) (container : pyval) : result bool :=
  match container with
  | VList l => Return (existsb (λ v, py_eq_int v n) l)
  | VDict d => Return false
  | _ => Raise TypeError
  end.

(** ['%' + search_term + '%']: concatenation to a [str] needs a [str]. *)
Definition py_like_pattern (search_term : pyval) : result string :=
  match search_term with
  | VStr s => Return ("%" +:+ s +:+ "%")
  | _ => Raise TypeError
  end.

(** ** Data model *)

Record Category : Type := mkCategory {
  category_id : Z;
  category_type : string
}.

(** The declaration of the [category] column is in [models.py]; the
    handlers compare the column with [str(id)] in one place and with the raw
    body value in another, and the specification calls it an integer.  The
    type of the column is therefore part of the database: a text column or
    an integer column. *)
Inductive column_type : Type :=
  | VarcharColumn
  | IntegerColumn.

(** The value a question row holds in its [category] column: a text in a
    text column, an integer in an integer column. *)
Inductive catval : Type :=
  | CatInt (n : Z)
  | CatStr (s : string).

#[local] Instance catval_eq_dec : EqDecision catval.
Proof. solve_decision. Defined.

Record Question : Type := mkQuestion {
  id : Z;
  question : string;
  answer : string;
  category : catval;
  difficulty : Z
}.

(** Modelled from the spec: [Question.format()] lives in [models.py]; a
    question is serialized as [{id, question, answer, category, difficulty}]. *)
Record FormattedQuestion : Type := mkFormatted {
  f_id : Z;
  f_question : string;
  f_answer : string;
  f_category : catval;
  f_difficulty : Z
}.

Definition format (q : Question) : FormattedQuestion :=
  {| f_id := id q;
     f_question := question q;
     f_answer := answer q;
     f_category := category q;
     f_difficulty := difficulty q |}.

Record database : Type := mkDatabase {
  categories : list Category;
  questions : list Question;
  category_column : column_type
}.

(** The part of the request outside its JSON body: [request.args.get('page',
    1, type=int)] reads [args_page], which is [None] when the parameter is
    missing or is not an integer. *)
Record request : Type := mkRequest {
  args_page : option Z
}.

(** The bodies passed to [jsonify], one constructor per shape; every one of
    them carries ['success': True], and ['currentCategory'] is [None] in
    [RQuestions] and [RSearch]. *)
Inductive response : Type :=
  | RCategories (categoriesDict : gmap Z string)
  | RQuestions (qs : list FormattedQuestion) (totalQuestions : nat)
               (categoriesDict : gmap Z string)
  | RSuccess
  | RSearch (qs : list FormattedQuestion) (totalQuestions : nat)
  | RCategoryQuestions (qs : list FormattedQuestion) (totalQuestions : nat)
                       (currentCategory : string)
  | RQuiz (q : FormattedQuestion).

(** ** Pagination *)

Definition QUESTIONS_PER_PAGE : Z := 10.

(** A slice bound of [l[start:stop]] on a list of length [n]: a negative
    bound counts from the end, and every bound is clamped to [0..n]. *)
Definition slice_bound (n i : Z) : Z :=
  if i <? 0 then Z.max 0 (i + n) else Z.min i n.

Definition py_slice {A} (l : list A) (start stop : Z) : list A :=
  let n := Z.of_nat (length l) in
  let lo := slice_bound n start in
  let hi := slice_bound n stop in
  take (Z.to_nat (hi - lo)) (drop (Z.to_nat lo) l).

Definition paginate_questions (req : request) (selection : list Question)
  : list FormattedQuestion :=
  let page := default 1 (args_page req) in
  let start := (page - 1) * QUESTIONS_PER_PAGE in
  let end_ := start + QUESTIONS_PER_PAGE in
  let questions := format <$> selection in
  let current_questions := py_slice questions start end_ in
  current_questions.

(** ** Storage queries

    The rows of a table are listed in storage order; [order_by] sorts them. *)

Definition question_id_le (a b : Question) : Prop := id a ≤ id b.
Definition category_id_le (a b : Category) : Prop := category_id a ≤ category_id b.

#[local] Instance question_id_le_dec : RelDecision question_id_le.
Proof. intros a b. unfold question_id_le. apply _. Defined.
#[local] Instance category_id_le_dec : RelDecision category_id_le.
Proof. intros a b. unfold category_id_le. apply _. Defined.

Definition order_by_id (rows : list Question) : list Question :=
  merge_sort question_id_le rows.

Definition order_by_category_id (rows : list Category) : list Category :=
  merge_sort category_id_le rows.

(** [Question.query.filter_by(id=id)] and [Category.query.filter_by(id=id)]. *)
Definition question_by_id (i : Z) (rows : list Question) : list Question :=
  filter (λ q, id q = i) rows.

Definition category_by_id (i : Z) (rows : list Category) : list Category :=
  filter (λ c, category_id c = i) rows.

(** [.one_or_none()] *)
Definition one_or_none {A} (rows : list A) : result (option A) :=
  match rows with
  | [] => Return None
  | [x] => Return (Some x)
  | _ => Raise MultipleResultsFound
  end.

(** *** Comparing the category column

    [Question.query.filter_by(category=v)] sends [v] to the database, which
    reads it in the type of the column before it compares.  Integers are not
    bounded here. *)

Definition digit_of (c : ascii) : option Z :=
  let n := nat_of_ascii c in
  if ((48 <=? n) && (n <=? 57))%nat then Some (Z.of_nat n - 48) else None.

Definition is_space (c : ascii) : bool :=
  Ascii.eqb c " " || ((9 <=? nat_of_ascii c) && (nat_of_ascii c <=? 13))%nat.

Fixpoint all_spaces (s : string) : bool :=
  match s with
  | EmptyString => true
  | String c s' => is_space c && all_spaces s'
  end.

Fixpoint skip_spaces (s : string) : string :=
  match s with
  | EmptyString => EmptyString
  | String c s' => if is_space c then skip_spaces s' else s
  end.

(** The digits after the first one, then nothing but spaces. *)
Fixpoint parse_digits (acc : Z) (s : string) : option Z :=
  match s with
  | EmptyString => Some acc
  | String c s' =>
      match digit_of c with
      | Some d => parse_digits (10 * acc + d) s'
      | None => if all_spaces s then Some acc else None
      end
  end.

Definition parse_nat (s : string) : option Z :=
  match s with
  | EmptyString => None
  | String c s' =>
      match digit_of c with
      | Some d => parse_digits d s'
      | None => None
      end
  end.

(** The text of an integer, as the database reads it: spaces, a sign if any,
    digits, spaces. *)
Definition parse_int (t : string) : option Z :=
  match skip_spaces t with
  | EmptyString => None
  | String c s =>
      if Ascii.eqb c "-" then Z.opp <$> parse_nat s
      else if Ascii.eqb c "+" then parse_nat s
      else parse_nat (String c s)
  end.

(** The value [v] read in the type of the column: [None] for [category IS
    NULL], or the value the column is compared with.  A text column does not
    compare with an integer or a boolean ([ProgrammingError]); an integer
    column reads a string as an integer ([DataError] when it is not one) and
    does not compare with a boolean; an empty list is sent as the text [{}],
    and no other list or object is comparable. *)
Definition bind_category (col : column_type) (v : pyval) : result (option catval) :=
  let text (t : string) :=
    match col with
    | VarcharColumn => Return (Some (CatStr t))
    | IntegerColumn =>
        match parse_int t with
        | Some n => Return (Some (CatInt n))
        | None => Raise DataError
        end
    end in
  match v with
  | VNone => Return None
  | VStr t => text t
  | VInt n =>
      match col with
      | IntegerColumn => Return (Some (CatInt n))
      | VarcharColumn => Raise ProgrammingError
      end
  | VList [] => text "{}"
  | VBool _ | VList _ | VDict _ => Raise ProgrammingError
  end.

(** The rows whose category is [c]; no stored category is NULL. *)
Definition rows_of_category (c : option catval) (rows : list Question) : list Question :=
  match c with
  | Some c => filter (λ q, category q = c) rows
  | None => []
  end.

(** [Question.query.filter_by(category=v).all()] *)
Definition filter_by_category (col : column_type) (v : pyval) (rows : list Question)
  : result (list Question) :=
  match bind_category col v with
  | Return c => Return (rows_of_category c rows)
  | Abort status => Abort status
  | Raise e => Raise e
  end.

(** *** Case-insensitive LIKE

    [ilike] folds the case of the pattern and of the text and matches them
    with LIKE.  The folding here is the one of the ASCII letters: it is the
    database's on ASCII patterns and texts, and only those are covered; on
    other characters the database folds more than [to_lower] does. *)

Definition to_lower (c : ascii) : ascii :=
  let n := nat_of_ascii c in
  if ((65 <=? n) && (n <=? 90))%nat then ascii_of_nat (n + 32) else c.

Definition lower (s : string) : list ascii :=
  to_lower <$> list_ascii_of_string s.

(** LIKE: [%] stands for any run of characters, [_] for any one character,
    and a backslash makes the character after it literal (a pattern that
    ends in a lone backslash matches nothing). *)
Fixpoint like_match (p s : list ascii) {struct p} : bool :=
  match p with
  | [] => match s with [] => true | _ => false end
  | c :: p' =>
      if Ascii.eqb c "%" then
        (fix star (s : list ascii) : bool :=
           like_match p' s ||
           match s with
           | [] => false
           | _ :: s' => star s'
           end) s
      else if Ascii.eqb c "_" then
        match s with
        | [] => false
        | _ :: s' => like_match p' s'
        end
      else if Ascii.eqb c "\" then
        match p', s with
        | e :: p'', x :: s' => Ascii.eqb e x && like_match p'' s'
        | _, _ => false
        end
      else
        match s with
        | [] => false
        | x :: s' => Ascii.eqb c x && like_match p' s'
        end
  end.

(** [column.ilike(pattern)] *)
Definition ilike (pattern text : string) : bool :=
  like_match (lower pattern) (lower text).

Definition filter_ilike (pattern : string) (rows : list Question) : list Question :=
  filter (λ q, ilike pattern (question q) = true) rows.

(** *** Writes *)

Definition next_id (rows : list Question) : Z :=
  1 + foldr (λ q m, Z.max (id q) m) 0 rows.

(** The category a new row keeps: a text column keeps an integer as its
    decimal text, an integer column keeps a text that reads as an integer as
    that integer. *)
Definition as_category (col : column_type) (v : pyval) : option catval :=
  match col, v with
  | VarcharColumn, VStr s => Some (CatStr s)
  | VarcharColumn, VInt n => Some (CatStr (pretty n))
  | IntegerColumn, VInt n => Some (CatInt n)
  | IntegerColumn, VStr s => CatInt <$> parse_int s
  | _, _ => None
  end.

(** Modelled from the spec: [Question(...)] and [Question.insert()] live in
    [models.py]; [insertQuestion(question, answer, category, difficulty)]
    fails with a validation error when any required field is absent or
    malformed.  A field is absent when it is [None], and malformed when its
    value does not have the type section 3 gives it (a string for the texts,
    an integer for the difficulty, an integer or its string for the
    category, kept in the type of the column).  The new row gets a fresh id
    and goes after the others. *)
Definition Question_insert (newQuestion newAnswer newCategory newDifficulty : pyval)
    (db : database) : result database :=
  match newQuestion, newAnswer, as_category (category_column db) newCategory,
        newDifficulty with
  | VStr q, VStr a, Some c, VInt d =>
      Return {| categories := categories db;
                questions := questions db ++ [mkQuestion (next_id (questions db)) q a c d];
                category_column := category_column db |}
  | _, _, _, _ => Raise IntegrityError
  end.

(** Modelled from the spec: [Question.delete()] lives in [models.py]; a
    question is destroyed by the delete operation, so its row (the one with
    its primary key) leaves the table. *)
Definition Question_delete (q : Question) (db : database) : database :=
  {| categories := categories db;
     questions := filter (λ r, id r ≠ id q) (questions db);
     category_column := category_column db |}.

(** ** View functions

    A view function runs against the database: it reads it, may replace it,
    and ends in a [result]. *)

Definition view (A : Type) : Type := database → result A * database.

#[local] Instance view_ret : MRet view := λ A a db, (Return a, db).

#[local] Instance view_bind : MBind view := λ A B k m db,
  match m db with
  | (Return a, db') => k a db'
  | (Abort c, db') => (Abort c, db')
  | (Raise e, db') => (Raise e, db')
  end.

Definition abort {A} (status : Z) : view A := λ db, (Abort status, db).

Definition lift {A} (r : result A) : view A := λ db, (r, db).

Definition query {A} (f : database → A) : view A := λ db, (Return (f db), db).

(** A query the database may refuse. *)
Definition execute {A} (f : database → result A) : view A := λ db, (f db, db).

Definition commit (f : database → result database) : view () := λ db,
  match f db with
  | Return db' => (Return (), db')
  | Abort c => (Abort c, db)
  | Raise e => (Raise e, db)
  end.

(** [try: body except Exception: handler].  [abort] raises an [HTTPException],
    which is an [Exception] too. *)
Definition try_except {A} (body handler : view A) : view A := λ db,
  match body db with
  | (Return a, db') => (Return a, db')
  | (_, db') => handler db'
  end.

(** [categories == None]: the list [.all()] returns is never [None]. *)
Definition py_is_None {A} (rows : list A) : bool := false.

(** The loop [for category in categories: categoriesDict[category.id] =
    category.type] over an empty dict. *)
Definition categories_dict (rows : list Category) : gmap Z string :=
  foldl (λ d c, <[category_id c := category_type c]> d) ∅ rows.

Definition get_categories : view response :=
  categories ← query categories;
  if py_is_None categories then abort 404 else
  let categoriesDict := categories_dict categories in
  mret (RCategories categoriesDict).

Definition get_questions (req : request) : view response :=
  selection ← query (λ db, order_by_id (questions db));
  let totalQuestions := length selection in
  let currentQuestions := paginate_questions req selection in
  if (length currentQuestions =? 0)%nat then abort 404 else
  categories ← query (λ db, order_by_category_id (categories db));
  let categoriesDict := categories_dict categories in
  mret (RQuestions currentQuestions totalQuestions categoriesDict).

Definition delete_a_question (i : Z) : view response :=
  rows ← query (λ db, question_by_id i (questions db));
  found ← lift (one_or_none rows);
  match found with
  | None => abort 404
  | Some question =>
      _ ← commit (λ db, Return (Question_delete question db));
      mret RSuccess
  end.

Definition add_question (req : request) (body : pyval) : view response :=
  newQuestion ← lift (py_get body "question");
  newAnswer ← lift (py_get body "answer");
  newCategory ← lift (py_get body "category");
  newDifficulty ← lift (py_get body "difficulty");
  search_term ← lift (py_get body "searchTerm");
  if py_truthy search_term then
    pattern ← lift (py_like_pattern search_term);
    questions ← query (λ db, filter_ilike pattern (questions db));
    if negb (bool_decide (questions = [])) then
      let currentQuestions := paginate_questions req questions in
      mret (RSearch currentQuestions (length questions))
    else abort 404
  else
    try_except
      (_ ← commit (Question_insert newQuestion newAnswer newCategory newDifficulty);
       mret RSuccess)
      (abort 422).

Definition questions_in_a_category (req : request) (i : Z) : view response :=
  rows ← query (λ db, category_by_id i (categories db));
  found ← lift (one_or_none rows);
  match found with
  | Some category =>
      questionsInCat ←
        execute (λ db, filter_by_category (category_column db) (VStr (pretty i))
                         (questions db));
      let currentQuestions := paginate_questions req questionsInCat in
      mret (RCategoryQuestions currentQuestions (length questionsInCat)
                               (category_type category))
  | None => abort 404
  end.

(** [random.randint(0, n - 1)]: the environment supplies the entropy and the
    draw is its residue, so every index below [n] can come out and no other. *)
Definition randint_below (entropy n : nat) : nat := (entropy `mod` n)%nat.

(** The body of the [while] loop ends in [return], so it runs at most once:
    a drawn question that was not played is returned; otherwise the loop is
    not entered and the function ends without a [return] statement, which
    makes it return [None] (a value Flask cannot turn into a response). *)
Definition play_quizzes (entropy : nat) (body : pyval) : view (option response) :=
  quizCategory ← lift (py_get body "quiz_category");
  previousQuestion ← lift (py_get body "previous_questions");
  quiz_id ← lift (py_getitem quizCategory "id");
  questionsQuery ←
    (if py_eq_int quiz_id 0
     then query questions
     else execute (λ db, filter_by_category (category_column db) quiz_id
                           (questions db)));
  if (length questionsQuery =? 0)%nat then abort 404 else
  let randomIndex := randint_below entropy (length questionsQuery) in
  match questionsQuery !! randomIndex with
  | None => lift (Raise IndexError)
  | Some questionToPlay =>
      played ← lift (py_in (id questionToPlay) previousQuestion);
      if negb played
      then mret (Some (RQuiz (format questionToPlay)))
      else mret None
  end.

(** ** Vocabulary of the specification *)

(** The request [GET ...?page=N]. *)
Definition page_request (page : Z) : request := {| args_page := Some page |}.

(** The number of pages of [n] items, [ceil(n / 10)]. *)
Definition page_count (n : nat) : nat := ((n + 9) / 10)%nat.

(** The body [{"searchTerm": term}] of a search. *)
Definition search_body (term : string) : pyval :=
  VDict {[ "searchTerm" := VStr term ]}.

(** The body [{"quiz_category": {"id": i}, "previous_questions": [ids]}]. *)
Definition quiz_body (i : pyval) (previous : list Z) : pyval :=
  VDict (<["quiz_category" := VDict {[ "id" := i ]}]>
           {[ "previous_questions" := VList (VInt <$> previous) ]}).

(** [p] starts [s], and [p] occurs in [s]. *)
Fixpoint prefix_b (p s : list ascii) : bool :=
  match p, s with
  | [], _ => true
  | c :: p', x :: s' => Ascii.eqb c x && prefix_b p' s'
  | _ :: _, [] => false
  end.

Fixpoint infix_b (p s : list ascii) : bool :=
  prefix_b p s ||
  match s with
  | [] => false
  | _ :: s' => infix_b p s'
  end.





(** The page asked for starts at or after the end of [n] items. *)
Definition past_the_end (req : request) (n : nat) : Prop :=
  let page := default 1 (args_page req) in
  1 ≤ page ∧ Z.of_nat n ≤ (page - 1) * QUESTIONS_PER_PAGE.

(** Sample rows. *)
Definition sample_question (i : Z) : Question :=
  mkQuestion i "Who invented peanut butter?" "George Washington Carver" (CatStr "1") 2.

Definition science : Category := mkCategory 1 "Science".

Definition two_questions : database :=
  mkDatabase [science] [sample_question 1; sample_question 2] VarcharColumn.

Definition three_questions : database :=
  mkDatabase [science] [sample_question 1; sample_question 2; sample_question 3]
    VarcharColumn.

Definition one_question : database :=
  mkDatabase [science] [sample_question 5] VarcharColumn.



(** The pool the quiz draws from, as [play_quizzes] selects it. *)
Definition quiz_pool (quiz_id : pyval) (db : database) : result (list Question) :=
  if py_eq_int quiz_id 0 then Return (questions db)
  else filter_by_category (category_column db) quiz_id (questions db).

(** The category [i] read in the type of the column, and the stored
    questions of that category. *)
Definition category_value (col : column_type) (i : Z) : catval :=
  match col with
  | VarcharColumn => CatStr (pretty i)
  | IntegerColumn => CatInt i
  end.

Definition questions_of_category (i : Z) (db : database) : list Question :=
  filter (λ q, category q = category_value (category_column db) i) (questions db).

(** A stored category has the type of the column, and so has every row. *)
Definition well_typed_category (col : column_type) (c : catval) : Prop :=
  match col, c with
  | VarcharColumn, CatStr _ | IntegerColumn, CatInt _ => True
  | _, _ => False
  end.

Definition well_typed (db : database) : Prop :=
  Forall (λ q, well_typed_category (category_column db) (category q)) (questions db).



(** ** Error handlers

    The functions registered with [@app.errorhandler(code)]: each returns
    the JSON body of the error and the status of the response, and none
    looks at the error it is given. *)

Record error_body : Type := mkErrorBody {
  eb_success : bool;
  eb_error : Z;
  eb_message : string
}.

Definition bad_request : error_body * Z :=
  (mkErrorBody false 400 "Bad request", 400).

Definition page_not_found : error_body * Z :=
  (mkErrorBody false 404 "Page not found", 404).

Definition unprocessable_recource : error_body * Z :=
  (mkErrorBody false 422 "Unprocessable recource", 422).

Definition invalid_method : error_body * Z :=
  (mkErrorBody false 405 "Invalid method", 405).

(** The registry the four decorators fill: the handler of a status code. *)
Definition errorhandler (code : Z) : option (error_body * Z) :=
  if code =? 400 then Some bad_request
  else if code =? 404 then Some page_not_found
  else if code =? 422 then Some unprocessable_recource
  else if code =? 405 then Some invalid_method
  else None.

(** Every character of the term is [%]. *)
Definition only_percent (term : string) : bool :=
  forallb (λ c, Ascii.eqb c "%") (list_ascii_of_string term).

(** Sample rows stored out of the order of their ids. *)
Definition unordered_questions : database :=
  mkDatabase [science] [sample_question 3; sample_question 1; sample_question 2]
    VarcharColumn.

Definition f_id_le (a b : FormattedQuestion) : Prop := f_id a ≤ f_id b.

(** * Properties *)

(** ** Pagination *)

Section slices.
Context {A : Type}.
Implicit Types l : list A.

(** With bounds [0 ≤ start ≤ stop] a slice is a [drop] followed by a
    [take]; the clamping only shows when a bound passes the end. *)
Lemma py_slice_nonneg l (start stop : Z) :
  0 ≤ start → start ≤ stop →
  py_slice l start stop
    = take (Z.to_nat (stop - start)) (drop (Z.to_nat start) l).
Proof.
  intros Hs Hle. unfold py_slice, slice_bound.
  destruct (Z.ltb_spec start 0) as [?|_]; [lia|].
  destruct (Z.ltb_spec stop 0) as [?|_]; [lia|].
  destruct (Z_le_gt_dec (Z.of_nat (length l)) start) as [Hout|Hin].
  - rewrite !(drop_ge l) by lia. by rewrite !take_nil.
  - rewrite (Z.min_l start) by lia.
    destruct (Z_le_gt_dec stop (Z.of_nat (length l))) as [?|?].
    + by rewrite (Z.min_l stop) by lia.
    + rewrite (Z.min_r stop) by lia.
      rewrite !take_ge; [done| |]; rewrite length_drop; lia.
Qed.

Lemma py_slice_length l (start stop : Z) :
  0 ≤ start → start ≤ stop →
  Z.of_nat (length (py_slice l start stop))
    = Z.min (stop - start) (Z.max 0 (Z.of_nat (length l) - start)).
Proof.
  intros Hs Hle. rewrite py_slice_nonneg by done.
  rewrite length_take, length_drop. lia.
Qed.

(** Cutting a list in consecutive runs of [n] and gluing them back. *)
Lemma concat_chunks (n : nat) l (k : nat) :
  (length l ≤ n * k)%nat →
  concat ((λ p, take n (drop (n * p) l)) <$> seq 0 k) = l.
Proof.
  revert l. induction k as [|k IH]; intros l Hlen.
  - destruct l; simpl in *; [done | lia].
  - cbn [seq fmap list_fmap concat].
    rewrite Nat.mul_0_r, drop_0.
    rewrite <- fmap_S_seq, <- list_fmap_compose.
    transitivity (take n l ++ drop n l); [|apply take_drop]. f_equal.
    etransitivity; [|apply (IH (drop n l)); rewrite length_drop; lia].
    f_equal. apply list_fmap_ext. intros _ p _. simpl.
    rewrite drop_drop. do 2 f_equal. lia.
Qed.
End slices.

Lemma page_count_ceiling (n : nat) :
  (n ≤ 10 * page_count n ∧ 10 * page_count n < n + 10)%nat.
Proof.
  unfold page_count.
  pose proof (Nat.div_mod_eq (n + 9) 10) as Hd.
  pose proof (Nat.mod_upper_bound (n + 9) 10). lia.
Qed.

Lemma paginate_questions_page (selection : list Question) (page : Z) :
  1 ≤ page →
  paginate_questions (page_request page) selection
    = take 10 (drop (Z.to_nat ((page - 1) * 10)) (format <$> selection)).
Proof.
  intros Hp. unfold paginate_questions, page_request, QUESTIONS_PER_PAGE. simpl.
  rewrite py_slice_nonneg by lia. f_equal. lia.
Qed.

(** C3.  For a page number [page ≥ 1], [paginate_questions] returns the
    slice [items[(page-1)*10 : (page-1)*10 + 10]] of the formatted selection,
    that is [min(10, max(0, N - (page-1)*10))] items (none when
    [(page-1)*10 ≥ N]), and the pages [1 .. ceil(N/10)] put one after the other
    give back the whole selection in its order. *)
Theorem paginate_questions_pages (selection : list Question) (page : Z) :
  1 ≤ page →
  let N := Z.of_nat (length selection) in
  let start := (page - 1) * 10 in
  let current := paginate_questions (page_request page) selection in
  current = take 10 (drop (Z.to_nat start) (format <$> selection))
  ∧ Z.of_nat (length current) = Z.min 10 (Z.max 0 (N - start))
  ∧ (N ≤ start → current = [])
  ∧ concat ((λ p : nat, paginate_questions (page_request (Z.of_nat p)) selection)
              <$> seq 1 (page_count (length selection)))
    = format <$> selection.
Proof.
  intros Hp N start current.
  assert (Hcur : current = take 10 (drop (Z.to_nat start) (format <$> selection)))
    by (by apply paginate_questions_page).
  assert (Hlen : Z.of_nat (length current) = Z.min 10 (Z.max 0 (N - start))).
  { rewrite Hcur, length_take, length_drop, length_fmap. subst N start. lia. }
  repeat split; [done | done | |].
  - intros Hout. apply nil_length_inv. lia.
  - rewrite <- fmap_S_seq, <- list_fmap_compose.
    etransitivity;
      [|apply (concat_chunks 10 (format <$> selection) (page_count (length selection)));
        rewrite length_fmap; apply page_count_ceiling].
    f_equal. apply list_fmap_ext. intros _ p _. simpl.
    rewrite paginate_questions_page by lia. do 2 f_equal. lia.
Qed.

Lemma paginate_questions_pages_witness :
  1 ≤ 3 ∧
  paginate_questions (page_request 3) (sample_question <$> seqZ 1 25)
    = format <$> (sample_question <$> seqZ 21 5).
Proof.
  split; [lia|].
  destruct (paginate_questions_pages (sample_question <$> seqZ 1 25) 3)
    as (-> & _); [lia|].
  reflexivity.
Defined.

(** ** Case-insensitive search *)

Lemma prefix_b_spec (p s : list ascii) :
  prefix_b p s = true ↔ ∃ b, s = p ++ b.
Proof.
  revert s. induction p as [|c p IH]; intros s; simpl.
  - split; [eauto | done].
  - destruct s as [|x s].
    + split; [done | intros [b Hb]; discriminate].
    + rewrite andb_true_iff, Ascii.eqb_eq, IH. split.
      * intros [-> [b ->]]. by exists b.
      * intros [b Hb]. injection Hb as -> ->. eauto.
Qed.

(** [infix_b] decides "occurs as a substring". *)
Lemma infix_b_spec (p s : list ascii) :
  infix_b p s = true ↔ ∃ a b, s = a ++ p ++ b.
Proof.
  induction s as [|x s IH]; simpl.
  - rewrite orb_false_r, prefix_b_spec. split.
    + intros [b Hb]. by exists [], b.
    + intros (a & b & Hab). destruct a; [by exists b|discriminate].
  - rewrite orb_true_iff, prefix_b_spec, IH. split.
    + intros [[b Hb]|(a & b & ->)]; [by exists [], b | by exists (x :: a), b].
    + intros ([|y a] & b & Hab); simpl in Hab.
      * left. by exists b.
      * right. injection Hab as -> ->. by exists a, b.
Qed.

Lemma lower_app (s t : string) : lower (s +:+ t) = lower s ++ lower t.
Proof.
  unfold lower. rewrite <- fmap_app. f_equal.
  induction s as [|c s IH]; simpl; [done | by rewrite <- IH].
Qed.



(** One step of the [%] wildcard: it stands for nothing, or it eats a
    character and stays. *)
Lemma like_match_percent (p s : list ascii) :
  like_match ("%"%char :: p) s
    = like_match p s ||
      match s with
      | [] => false
      | _ :: s' => like_match ("%"%char :: p) s'
      end.
Proof. destruct s; reflexivity. Qed.


Lemma like_match_trailing_percent (s : list ascii) :
  like_match ["%"%char] s = true.
Proof.
  induction s as [|x s IH]; [done|].
  rewrite like_match_percent, IH. apply orb_true_r.
Qed.




(** ** Running a view function *)

Section view_laws.
Context {A B : Type}.
Implicit Types (k : A → view B) (db : database).

Lemma bind_lift_Return (a : A) k db : (lift (Return a) ≫= k) db = k a db.
Proof. reflexivity. Qed.

Lemma bind_lift_Raise (e : exn) k db : (lift (Raise e) ≫= k) db = (Raise e, db).
Proof. reflexivity. Qed.

Lemma bind_query (f : database → A) k db : (query f ≫= k) db = k (f db) db.
Proof. reflexivity. Qed.

Lemma bind_mret (a : A) k db : (mret a ≫= k) db = k a db.
Proof. reflexivity. Qed.

Lemma bind_execute (f : database → result A) k db :
  (execute f ≫= k) db
    = match f db with
      | Return a => k a db
      | Abort c => (Abort c, db)
      | Raise e => (Raise e, db)
      end.
Proof. unfold mbind, view_bind, execute. by destruct (f db). Qed.

Lemma bind_if (c : bool) (m1 m2 : view A) k db :
  ((if c then m1 else m2) ≫= k) db = if c then (m1 ≫= k) db else (m2 ≫= k) db.
Proof. by destruct c. Qed.

Lemma if_view (c : bool) (m1 m2 : view A) db :
  (if c then m1 else m2) db = if c then m1 db else m2 db.
Proof. by destruct c. Qed.
End view_laws.

Lemma py_get_dict (d : gmap string pyval) (key : string) :
  py_get (VDict d) key = Return (default VNone (d !! key)).
Proof. reflexivity. Qed.

Ltac view_step :=
  rewrite ?py_get_dict, ?bind_lift_Return, ?bind_query, ?bind_mret.

Lemma filter_none {A} (P : A → Prop) `{∀ x, Decision (P x)} (rows : list A) :
  (∀ x, x ∈ rows → ¬ P x) → filter P rows = [].
Proof.
  induction rows as [|y rows IH]; intros Hno; [done|].
  rewrite filter_cons_False by (apply Hno; left).
  apply IH. intros x Hx. apply Hno. by right.
Qed.

(** A primary key names one row. *)
Lemma filter_by_key {A} (key : A → Z) (rows : list A) (x : A) :
  NoDup (key <$> rows) → x ∈ rows →
  filter (λ y, key y = key x) rows = [x].
Proof.
  induction rows as [|y rows IH]; intros Hnd Hin; [by apply elem_of_nil in Hin|].
  rewrite fmap_cons in Hnd. apply NoDup_cons in Hnd as [Hy Hnd].
  apply elem_of_cons in Hin as [->|Hin].
  - rewrite filter_cons_True by done. f_equal.
    apply filter_none. intros z Hz Heq.
    apply Hy. rewrite <- Heq. by apply list_elem_of_fmap_2.
  - rewrite filter_cons_False; [by apply IH|].
    intros Heq. apply Hy. rewrite Heq. by apply list_elem_of_fmap_2.
Qed.

Lemma filter_by_key_unknown {A} (key : A → Z) (rows : list A) (i : Z) :
  (∀ x, x ∈ rows → key x ≠ i) → filter (λ y, key y = i) rows = [].
Proof.
  intros Hno. apply filter_none. intros x Hx. by apply Hno.
Qed.

Lemma order_by_id_length (rows : list Question) :
  length (order_by_id rows) = length rows.
Proof. unfold order_by_id. by rewrite merge_sort_Permutation. Qed.

Lemma py_slice_nil {A} (start stop : Z) : py_slice (@nil A) start stop = [].
Proof. unfold py_slice. by rewrite drop_nil, take_nil. Qed.

Lemma paginate_questions_past_the_end (req : request) (selection : list Question) :
  selection = [] ∨ past_the_end req (length selection) →
  paginate_questions req selection = [].
Proof.
  unfold paginate_questions, past_the_end, QUESTIONS_PER_PAGE.
  intros [->|[Hp Hlen]]; [apply py_slice_nil|].
  apply nil_length_inv. apply Nat2Z.inj.
  rewrite py_slice_length, length_fmap by lia. lia.
Qed.

(** ** Reading the category in the type of the column *)

Lemma digit_of_pretty_char (x : N) :
  (x < 10)%N → digit_of (pretty_N_char x) = Some (Z.of_N x).
Proof.
  intros Hx.
  assert (x = 0 ∨ x = 1 ∨ x = 2 ∨ x = 3 ∨ x = 4 ∨ x = 5 ∨ x = 6 ∨ x = 7
          ∨ x = 8 ∨ x = 9)%N as Hcases by lia.
  repeat (destruct Hcases as [->|Hcases]; [reflexivity|]). by subst x.
Qed.

Lemma digit_of_plain (c : ascii) (d : Z) :
  digit_of c = Some d →
  is_space c = false ∧ Ascii.eqb c "-" = false ∧ Ascii.eqb c "+" = false.
Proof.
  destruct c as [[] [] [] [] [] [] [] []]; try discriminate; intros _; by repeat split.
Qed.

(** Reading the digits [pretty] writes for [x] shifts what was read and adds
    [x]. *)
Lemma parse_digits_pretty_go (x : N) :
  ∃ p : Z, ∀ acc s,
    parse_digits acc (pretty_N_go x s) = parse_digits (acc * p + Z.of_N x) s.
Proof.
  induction (N.lt_wf_0 x) as [x _ IH].
  destruct (decide (x = 0)%N) as [->|Hpos].
  - exists 1. intros acc s. rewrite pretty_N_go_0. f_equal. lia.
  - destruct (IH (x `div` 10)%N) as [p Hp]; [apply N.div_lt; lia|].
    exists (10 * p). intros acc s.
    rewrite pretty_N_go_step, Hp by lia. cbn [parse_digits].
    rewrite digit_of_pretty_char by (apply N.mod_lt; lia). f_equal.
    pose proof (N.div_mod x 10 ltac:(lia)) as Hx.
    apply (f_equal Z.of_N) in Hx. rewrite N2Z.inj_add, N2Z.inj_mul in Hx. lia.
Qed.

Lemma pretty_go_head (x : N) (s : string) :
  (0 < x)%N →
  ∃ c s' d, pretty_N_go x s = String c s' ∧ digit_of c = Some d.
Proof.
  revert s. induction (N.lt_wf_0 x) as [x _ IH]. intros s Hpos.
  rewrite pretty_N_go_step by done.
  destruct (decide (x `div` 10 = 0)%N) as [->|Hdiv].
  - rewrite pretty_N_go_0. eexists _, _, _. split; [done|].
    apply digit_of_pretty_char, N.mod_lt. lia.
  - apply IH; [apply N.div_lt; lia | by apply N.neq_0_lt_0].
Qed.

Lemma parse_int_pretty_positive (x : positive) :
  parse_int (pretty_N_go (N.pos x) EmptyString) = Some (Z.pos x)
  ∧ parse_nat (pretty_N_go (N.pos x) EmptyString) = Some (Z.pos x).
Proof.
  destruct (pretty_go_head (N.pos x) EmptyString) as (c & s' & d & Hhead & Hd); [lia|].
  assert (Hnat : parse_nat (pretty_N_go (N.pos x) EmptyString) = Some (Z.pos x)).
  { transitivity (parse_digits 0 (pretty_N_go (N.pos x) EmptyString)).
    - rewrite Hhead. simpl. by rewrite Hd.
    - destruct (parse_digits_pretty_go (N.pos x)) as [p Hp]. rewrite Hp.
      simpl. f_equal. }
  split; [|done]. rewrite <- Hnat. unfold parse_int. rewrite Hhead.
  destruct (digit_of_plain c d Hd) as (Hsp & Hminus & Hplus).
  cbn [skip_spaces]. by rewrite Hsp, Hminus, Hplus.
Qed.

(** The round trip the listing relies on: the database reads [str(i)] back
    as [i]. *)
Lemma parse_int_pretty (i : Z) : parse_int (pretty i) = Some i.
Proof.
  destruct i as [|x|x]; [reflexivity| |].
  - apply parse_int_pretty_positive.
  - unfold pretty, pretty_Z, pretty, pretty_positive, pretty, pretty_N.
    rewrite decide_False by done.
    change ("-" +:+ pretty_N_go (N.pos x) EmptyString)
      with (String "-" (pretty_N_go (N.pos x) EmptyString)).
    unfold parse_int. cbn [skip_spaces].
    change (is_space "-") with false. cbn beta iota.
    change (Ascii.eqb "-" "-") with true. cbn beta iota.
    destruct (parse_int_pretty_positive x) as [_ ->]. reflexivity.
Qed.

Lemma bind_category_str (col : column_type) (i : Z) :
  bind_category col (VStr (pretty i)) = Return (Some (category_value col i)).
Proof. destruct col; simpl; [done|]. by rewrite parse_int_pretty. Qed.

Lemma filter_by_category_str (i : Z) (db : database) :
  filter_by_category (category_column db) (VStr (pretty i)) (questions db)
    = Return (questions_of_category i db).
Proof. unfold filter_by_category. by rewrite bind_category_str. Qed.

(** ** The quiz *)

Lemma py_in_ids (n : Z) (previous : list Z) :
  py_in n (VList (VInt <$> previous)) = Return (bool_decide (n ∈ previous)).
Proof.
  unfold py_in. f_equal. induction previous as [|m previous IH]; [done|].
  rewrite fmap_cons. cbn [existsb py_eq_int]. rewrite IH.
  destruct (Z.eqb_spec m n) as [->|Hne].
  - symmetry. apply bool_decide_eq_true. left.
  - simpl. apply bool_decide_ext. rewrite elem_of_cons. split; [by right|].
    by intros [?|?].
Qed.

(** The draw and the loop of [play_quizzes], once the pool is known. *)
Lemma play_quizzes_draw (entropy : nat) (previous : list Z)
    (pool : list Question) (db : database) :
  (if (length pool =? 0)%nat then abort 404 else
   let randomIndex := randint_below entropy (length pool) in
   match pool !! randomIndex with
   | None => lift (Raise IndexError)
   | Some questionToPlay =>
       played ← lift (py_in (id questionToPlay) (VList (VInt <$> previous)));
       if negb played
       then mret (Some (RQuiz (format questionToPlay)))
       else mret None
   end) db
  = match pool !! randint_below entropy (length pool) with
    | None => (Abort 404, db)
    | Some q =>
        if bool_decide (id q ∈ previous)
        then (Return None, db)
        else (Return (Some (RQuiz (format q))), db)
    end.
Proof.
  destruct (Nat.eqb_spec (length pool) 0) as [Hnil|Hpos].
  - apply nil_length_inv in Hnil. by rewrite Hnil.
  - cbn zeta.
    destruct (pool !! randint_below entropy (length pool)) as [q|] eqn:Hq.
    + rewrite py_in_ids, bind_lift_Return.
      by destruct (bool_decide (id q ∈ previous)).
    + apply lookup_ge_None in Hq. unfold randint_below in Hq.
      pose proof (Nat.mod_upper_bound entropy (length pool) Hpos). lia.
Qed.

(** What [play_quizzes] does on a well-formed body: when the database
    accepts the query, one draw from the pool, answered when the drawn
    question was not played and dropped otherwise. *)
Lemma play_quizzes_quiz_body (entropy : nat) (i : pyval) (previous : list Z)
    (db : database) :
  play_quizzes entropy (quiz_body i previous) db
    = match quiz_pool i db with
      | Return pool =>
          match pool !! randint_below entropy (length pool) with
          | None => (Abort 404, db)
          | Some q =>
              if bool_decide (id q ∈ previous)
              then (Return None, db)
              else (Return (Some (RQuiz (format q))), db)
          end
      | Abort c => (Abort c, db)
      | Raise e => (Raise e, db)
      end.
Proof.
  unfold play_quizzes, quiz_body. view_step.
  rewrite lookup_insert_eq, lookup_insert_ne by done.
  rewrite !lookup_singleton_eq. cbn [default from_option Datatypes.id py_getitem].
  rewrite lookup_singleton_eq. view_step.
  rewrite bind_if, bind_query, bind_execute. unfold quiz_pool.
  destruct (py_eq_int i 0); [apply play_quizzes_draw|].
  destruct (filter_by_category _ i (questions db)); [apply play_quizzes_draw|done..].
Qed.

(** The quiz never answers with a question that was already played, and it
    answers with nothing when every question of the pool was played... *)
Lemma play_quizzes_unplayed (entropy : nat) (i : pyval) (previous : list Z)
    (db db' : database) (r : response) :
  play_quizzes entropy (quiz_body i previous) db = (Return (Some r), db') →
  ∃ pool q, quiz_pool i db = Return pool
            ∧ q ∈ pool ∧ (id q ∉ previous) ∧ r = RQuiz (format q) ∧ db' = db.
Proof.
  rewrite play_quizzes_quiz_body.
  destruct (quiz_pool i db) as [pool|c|e]; [|done..].
  destruct (pool !! _) as [q|] eqn:Hq; [|done].
  case_bool_decide as Hin; [done|].
  intros [= <- <-]. exists pool, q.
  split; [done|]. eauto using list_elem_of_lookup_2.
Qed.

Lemma play_quizzes_all_played (entropy : nat) (i : pyval) (previous : list Z)
    (db : database) (pool : list Question) :
  quiz_pool i db = Return pool →
  pool ≠ [] →
  (∀ q, q ∈ pool → id q ∈ previous) →
  play_quizzes entropy (quiz_body i previous) db = (Return None, db).
Proof.
  intros Hpool Hne Hall. rewrite play_quizzes_quiz_body, Hpool.
  destruct (pool !! _) as [q|] eqn:Hq.
  - rewrite bool_decide_eq_true_2; [done|].
    eauto using list_elem_of_lookup_2.
  - apply lookup_ge_None in Hq. unfold randint_below in Hq.
    assert (length pool ≠ 0%nat) as Hpos
      by (by intros ?%nil_length_inv).
    pose proof (Nat.mod_upper_bound entropy _ Hpos). lia.
Qed.

(** ... but it also answers with nothing whenever the one question it drew
    was played, whatever is left in the pool. *)
Lemma play_quizzes_played_draw (entropy : nat) (i : pyval) (previous : list Z)
    (db : database) (pool : list Question) (q : Question) :
  quiz_pool i db = Return pool →
  pool !! randint_below entropy (length pool) = Some q →
  id q ∈ previous →
  play_quizzes entropy (quiz_body i previous) db = (Return None, db).
Proof.
  intros Hpool Hq Hin. rewrite play_quizzes_quiz_body, Hpool, Hq.
  by rewrite bool_decide_eq_true_2.
Qed.

(** C1.  The picker is meant to end without a question exactly when every
    question of the pool was played.  With questions 1 and 2 in the pool and
    only question 1 played, the draw of index 0 ends without a question
    although question 2 was not played; the draw of index 1 returns
    question 2. *)
Theorem play_quizzes_drops_played_draw :
  play_quizzes 0 (quiz_body (VInt 0) [1]) two_questions
    = (Return None, two_questions)
  ∧ play_quizzes 1 (quiz_body (VInt 0) [1]) two_questions
    = (Return (Some (RQuiz (format (sample_question 2)))), two_questions).
Proof. split; reflexivity. Qed.

(** C2.  With questions 1, 2 and 3 in the pool and 1 and 2 played, the
    answer depends on the draw: indices 0 and 1 end without a question, and
    only index 2 returns question 3. *)
Theorem play_quizzes_example_depends_on_draw :
  play_quizzes 0 (quiz_body (VInt 0) [1; 2]) three_questions
    = (Return None, three_questions)
  ∧ play_quizzes 1 (quiz_body (VInt 0) [1; 2]) three_questions
    = (Return None, three_questions)
  ∧ play_quizzes 2 (quiz_body (VInt 0) [1; 2]) three_questions
    = (Return (Some (RQuiz (format (sample_question 3)))), three_questions).
Proof. repeat split; reflexivity. Qed.



(** A category id the column does not compare with is not an empty pool:
    the query is refused and the view ends in the database's exception. *)
Lemma play_quizzes_refused (entropy : nat) (i : pyval) (previous : list Z)
    (db : database) (e : exn) :
  quiz_pool i db = Raise e →
  play_quizzes entropy (quiz_body i previous) db = (Raise e, db).
Proof. intros Hpool. by rewrite play_quizzes_quiz_body, Hpool. Qed.

(** ** Categories *)

Lemma get_categories_always_succeeds (db : database) :
  get_categories db = (Return (RCategories (categories_dict (categories db))), db).
Proof. reflexivity. Qed.

(** C4.  With no category in the database [get_categories] does not fail
    with NotFound: the guard compares the list with [None], never finds them
    equal, and the handler answers with an empty mapping. *)
Theorem get_categories_empty (rows : list Question) (col : column_type) :
  get_categories (mkDatabase [] rows col)
    = (Return (RCategories ∅), mkDatabase [] rows col).
Proof. reflexivity. Qed.

(** ** Adding a question *)

Lemma Question_insert_absent (newQuestion newAnswer newCategory newDifficulty : pyval)
    (db : database) :
  newQuestion = VNone ∨ newAnswer = VNone →
  Question_insert newQuestion newAnswer newCategory newDifficulty db
    = Raise IntegrityError.
Proof.
  unfold Question_insert. intros [->| ->]; [done|].
  by destruct newQuestion.
Qed.

Lemma add_question_absent_field (req : request) (d : gmap string pyval)
    (db : database) :
  py_truthy (default VNone (d !! "searchTerm")) = false →
  default VNone (d !! "question") = VNone ∨ default VNone (d !! "answer") = VNone →
  add_question req (VDict d) db = (Abort 422, db).
Proof.
  intros Hterm Hmiss. unfold add_question. view_step. rewrite Hterm.
  unfold try_except, mbind, view_bind, commit.
  by rewrite Question_insert_absent.
Qed.

(** C5.  A creation request (one whose [searchTerm] is missing or empty)
    without its [question] or without its [answer] is answered with
    [abort(422)], and the questions stored are the ones stored before. *)
Theorem add_question_missing_field (req : request) (d : gmap string pyval)
    (db : database) :
  py_truthy (default VNone (d !! "searchTerm")) = false →
  d !! "question" = None ∨ d !! "answer" = None →
  add_question req (VDict d) db = (Abort 422, db).
Proof.
  intros Hterm Hmiss. apply add_question_absent_field; [done|].
  destruct Hmiss as [-> | ->]; auto.
Qed.

Lemma add_question_missing_field_witness :
  add_question (page_request 1)
    (VDict (<["answer" := VStr "Carver"]> {[ "difficulty" := VInt 2 ]}))
    one_question
  = (Abort 422, one_question).
Proof.
  apply add_question_missing_field.
  - reflexivity.
  - left. reflexivity.
Defined.

(** ** Searching *)





(** An empty term is not searched for at all: the request is taken as the
    creation of a question. *)
Lemma add_question_empty_term (req : request) (db : database) :
  add_question req (search_body EmptyString) db = (Abort 422, db).
Proof. by apply add_question_absent_field; [|left]. Qed.

(** ** Questions of a category *)

Lemma questions_in_a_category_run (req : request) (c : Category) (db : database) :
  NoDup (category_id <$> categories db) →
  c ∈ categories db →
  questions_in_a_category req (category_id c) db
    = (Return (RCategoryQuestions
                 (paginate_questions req (questions_of_category (category_id c) db))
                 (length (questions_of_category (category_id c) db))
                 (category_type c)), db).
Proof.
  intros Hnd Hc. unfold questions_in_a_category. view_step.
  unfold category_by_id. rewrite (filter_by_key category_id _ c) by done.
  cbn [one_or_none]. view_step.
  by rewrite bind_execute, filter_by_category_str.
Qed.






(** ** Listings *)

Lemma get_questions_empty_page (req : request) (db : database) :
  paginate_questions req (order_by_id (questions db)) = [] →
  get_questions req db = (Abort 404, db).
Proof.
  intros Hpage. unfold get_questions. view_step. by rewrite Hpage.
Qed.

(** C10.  For a category that exists, [questions_in_a_category] answers with
    the requested page of the category's questions, their number and the
    category's name, and never with NotFound: when the category has no
    question, or the page starts past the last of them, the page is empty and
    the number is still the true one.  [get_questions] answers an empty page
    with [abort(404)]. *)
Theorem questions_in_a_category_empty_page (req : request) (c : Category)
    (db : database) :
  NoDup (category_id <$> categories db) →
  c ∈ categories db →
  let pool := questions_of_category (category_id c) db in
  questions_in_a_category req (category_id c) db
    = (Return (RCategoryQuestions (paginate_questions req pool) (length pool)
                                  (category_type c)), db)
  ∧ (pool = [] ∨ past_the_end req (length pool) →
     questions_in_a_category req (category_id c) db
       = (Return (RCategoryQuestions [] (length pool) (category_type c)), db))
  ∧ (questions db = [] ∨ past_the_end req (length (questions db)) →
     get_questions req db = (Abort 404, db)).
Proof.
  intros Hnd Hc pool.
  assert (Hrun : questions_in_a_category req (category_id c) db
    = (Return (RCategoryQuestions (paginate_questions req pool) (length pool)
                                  (category_type c)), db))
    by (by apply questions_in_a_category_run).
  repeat split; [done | |].
  - intros Hempty. by rewrite Hrun, paginate_questions_past_the_end.
  - intros Hempty. apply get_questions_empty_page.
    apply paginate_questions_past_the_end.
    rewrite order_by_id_length.
    destruct Hempty as [Hnil|?]; [|by right].
    left. apply nil_length_inv. by rewrite order_by_id_length, Hnil.
Qed.

Lemma questions_in_a_category_empty_page_witness :
  questions_in_a_category (page_request 2) 1 one_question
    = (Return (RCategoryQuestions [] 1 "Science"), one_question)
  ∧ get_questions (page_request 2) one_question = (Abort 404, one_question).
Proof.
  assert (Hnd : NoDup (category_id <$> categories one_question)) by compute_done.
  assert (Hc : science ∈ categories one_question) by left.
  destruct (questions_in_a_category_empty_page (page_request 2) science
              one_question Hnd Hc) as (_ & Hcat & Hall).
  split.
  - apply Hcat. right. unfold past_the_end, QUESTIONS_PER_PAGE. simpl. lia.
  - apply Hall. right. unfold past_the_end, QUESTIONS_PER_PAGE. simpl. lia.
Defined.

(** ** Deleting a question *)

Lemma question_by_id_deleted (q : Question) (db : database) :
  question_by_id (id q) (questions (Question_delete q db)) = [].
Proof.
  unfold question_by_id, Question_delete. simpl.
  apply filter_none. intros r Hr Heq.
  by apply list_elem_of_filter in Hr as [Hne _].
Qed.

Lemma delete_a_question_unknown (i : Z) (db : database) :
  question_by_id i (questions db) = [] →
  delete_a_question i db = (Abort 404, db).
Proof.
  intros Hno. unfold delete_a_question. view_step. by rewrite Hno.
Qed.

(** C9.  With ids as primary key: deleting an existing question succeeds,
    after which no row has its id, looking the id up finds nothing and
    deleting it again is answered with [abort(404)]; deleting an id that no
    row has is answered with [abort(404)] and leaves the database as it was. *)
Theorem delete_a_question_spec (i : Z) (db : database) :
  NoDup (id <$> questions db) →
  (∀ q, q ∈ questions db → id q = i →
     let db' := Question_delete q db in
     delete_a_question i db = (Return RSuccess, db')
     ∧ (∀ r, r ∈ questions db' → id r ≠ i)
     ∧ one_or_none (question_by_id i (questions db')) = Return None
     ∧ delete_a_question i db' = (Abort 404, db'))
  ∧ ((∀ q, q ∈ questions db → id q ≠ i) →
     delete_a_question i db = (Abort 404, db)).
Proof.
  intros Hnd. split.
  - intros q Hq <- db'. split; [|split; [|split]].
    + unfold delete_a_question. view_step.
      unfold question_by_id. by rewrite (filter_by_key id _ q).
    + intros r Hr. by apply list_elem_of_filter in Hr as [Hne _].
    + subst db'. by rewrite question_by_id_deleted.
    + apply delete_a_question_unknown, question_by_id_deleted.
  - intros Hno. apply delete_a_question_unknown.
    by apply filter_by_key_unknown.
Qed.

Lemma delete_a_question_spec_witness :
  delete_a_question 2 three_questions
    = (Return RSuccess, mkDatabase [science] [sample_question 1; sample_question 3] VarcharColumn)
  ∧ delete_a_question 2 (mkDatabase [science] [sample_question 1; sample_question 3] VarcharColumn)
    = (Abort 404, mkDatabase [science] [sample_question 1; sample_question 3] VarcharColumn)
  ∧ delete_a_question 9 three_questions = (Abort 404, three_questions).
Proof.
  assert (Hnd : NoDup (id <$> questions three_questions)) by compute_done.
  destruct (delete_a_question_spec 2 three_questions Hnd) as [Hknown _].
  destruct (delete_a_question_spec 9 three_questions Hnd) as [_ Hunknown].
  destruct (Hknown (sample_question 2)) as (Hdel & _ & _ & Hagain);
    [right; left | reflexivity |].
  split; [exact Hdel | split; [exact Hagain |]].
  apply Hunknown. intros q Hq.
  repeat (apply elem_of_cons in Hq as [->|Hq]); try done.
  by apply elem_of_nil in Hq.
Defined.

(** The primary key survives the two writes. *)
Lemma next_id_fresh (rows : list Question) (q : Question) :
  q ∈ rows → id q < next_id rows.
Proof.
  unfold next_id. induction rows as [|r rows IH]; intros Hq.
  - by apply elem_of_nil in Hq.
  - apply elem_of_cons in Hq as [->|Hq]; simpl; [lia|].
    specialize (IH Hq). lia.
Qed.

Lemma Question_insert_NoDup (a b c d : pyval) (db db' : database) :
  NoDup (id <$> questions db) →
  Question_insert a b c d db = Return db' →
  NoDup (id <$> questions db').
Proof.
  intros Hnd. unfold Question_insert.
  destruct a, b, (as_category (category_column db) c), d; try discriminate.
  intros [= <-]. simpl. rewrite fmap_app. apply NoDup_app.
  repeat split; [done | | apply NoDup_singleton].
  intros i Hi Hnew. apply list_elem_of_fmap in Hi as (q & -> & Hq).
  apply list_elem_of_singleton in Hnew. simpl in Hnew.
  pose proof (next_id_fresh _ _ Hq). lia.
Qed.

Lemma Question_delete_NoDup (q : Question) (db : database) :
  NoDup (id <$> questions db) → NoDup (id <$> questions (Question_delete q db)).
Proof.
  simpl. generalize (questions db). intros rows.
  induction rows as [|r rows IH]; intros Hnd; [done|].
  rewrite fmap_cons in Hnd. apply NoDup_cons in Hnd as [Hr Hnd].
  rewrite filter_cons. case_decide; [|by apply IH].
  rewrite fmap_cons. apply NoDup_cons. split; [|by apply IH].
  intros Hin. apply Hr. apply list_elem_of_fmap in Hin as (x & -> & Hx).
  apply list_elem_of_filter in Hx as [_ Hx]. by apply list_elem_of_fmap_2.
Qed.

(** * Further properties of the handlers *)

(** The rows keep the type of the column through the two writes. *)
Lemma as_category_well_typed (col : column_type) (v : pyval) (c : catval) :
  as_category col v = Some c → well_typed_category col c.
Proof.
  destruct col, v; simpl; try discriminate.
  - by intros [= <-].
  - by intros [= <-].
  - by intros [= <-].
  - destruct (parse_int s); simpl; [by intros [= <-]|discriminate].
Qed.

Lemma Question_insert_well_typed (a b c d : pyval) (db db' : database) :
  well_typed db →
  Question_insert a b c d db = Return db' →
  well_typed db'.
Proof.
  unfold well_typed, Question_insert. intros Hwt.
  destruct a, b, (as_category (category_column db) c) eqn:Hc, d; try discriminate.
  intros [= <-]. simpl. apply Forall_app. split; [done|].
  apply Forall_singleton. simpl. by eapply as_category_well_typed.
Qed.

Lemma Question_delete_well_typed (q : Question) (db : database) :
  well_typed db → well_typed (Question_delete q db).
Proof.
  unfold well_typed. simpl. intros Hwt. apply Forall_forall. intros r Hr.
  apply list_elem_of_filter in Hr as [_ Hr].
  by eapply Forall_forall in Hwt.
Qed.

(** ** Pages, for any page number *)

Lemma py_slice_take_drop {A} (l : list A) (start stop : Z) :
  ∃ j k : nat,
    py_slice l start stop = take k (drop j l)
    ∧ Z.of_nat k = Z.max 0 (slice_bound (Z.of_nat (length l)) stop
                            - slice_bound (Z.of_nat (length l)) start).
Proof.
  unfold py_slice. eexists _, _. split; [reflexivity|]. lia.
Qed.

Lemma slice_bound_step (n start len : Z) :
  0 ≤ n → 0 ≤ len → slice_bound n (start + len) - slice_bound n start ≤ len.
Proof.
  intros Hn Hlen. unfold slice_bound.
  destruct (Z.ltb_spec (start + len) 0), (Z.ltb_spec start 0); lia.
Qed.

Lemma paginate_questions_split (req : request) (selection : list Question) :
  ∃ before after,
    format <$> selection = before ++ paginate_questions req selection ++ after.
Proof.
  unfold paginate_questions.
  destruct (py_slice_take_drop (format <$> selection)
              ((default 1 (args_page req) - 1) * QUESTIONS_PER_PAGE)
              ((default 1 (args_page req) - 1) * QUESTIONS_PER_PAGE + QUESTIONS_PER_PAGE))
    as (j & k & -> & _).
  exists (take j (format <$> selection)), (drop k (drop j (format <$> selection))).
  by rewrite take_drop, take_drop.
Qed.

(** X1.  Whatever the page parameter is (missing, zero, negative, past the
    end), the page has at most ten items and is a run of consecutive items
    of the formatted selection, in their order. *)
Theorem paginate_questions_run (req : request) (selection : list Question) :
  (length (paginate_questions req selection) ≤ 10)%nat
  ∧ ∃ before after,
      format <$> selection = before ++ paginate_questions req selection ++ after.
Proof.
  split; [|apply paginate_questions_split].
  unfold paginate_questions, QUESTIONS_PER_PAGE.
  set (l := format <$> selection). set (start := (default 1 (args_page req) - 1) * 10).
  destruct (py_slice_take_drop l start (start + 10)) as (j & k & -> & Hk).
  pose proof (slice_bound_step (Z.of_nat (length l)) start 10).
  rewrite length_take. lia.
Qed.

(** X2.  Page 0 is empty for every selection, so [get_questions] answers
    [?page=0] with [abort(404)] whatever the database holds. *)
Theorem get_questions_page_zero (db : database) :
  get_questions (page_request 0) db = (Abort 404, db).
Proof.
  unfold get_questions. view_step.
  assert (Hpage : paginate_questions (page_request 0) (order_by_id (questions db)) = []).
  { unfold paginate_questions, py_slice, slice_bound, QUESTIONS_PER_PAGE. simpl.
    apply nil_length_inv, Nat.le_0_r. rewrite length_take.
    destruct (Z.ltb_spec (-10 + 10) 0); lia. }
  by rewrite Hpage.
Qed.

(** X3.  A negative page counts from the end: page [-m] is what is left of
    the last ten items once the last [10 * m] items are taken away; it is
    not empty as soon as the selection has more than [10 * m] items. *)
Theorem paginate_questions_negative_page (selection : list Question) (m : nat) :
  (1 ≤ m)%nat →
  let l := format <$> selection in
  let kept := take (length l - 10 * m) l in
  paginate_questions (page_request (- Z.of_nat m)) selection
    = drop (length kept - 10) kept.
Proof.
  intros Hm l kept.
  unfold paginate_questions, py_slice, slice_bound, QUESTIONS_PER_PAGE. simpl.
  fold l. subst kept.
  destruct (Z.ltb_spec ((- Z.of_nat m - 1) * 10 + 10) 0) as [_|?]; [|lia].
  destruct (Z.ltb_spec ((- Z.of_nat m - 1) * 10) 0) as [_|?]; [|lia].
  rewrite length_take, take_drop_commute.
  f_equal; [lia | f_equal; lia].
Qed.

Lemma paginate_questions_negative_page_witness :
  (1 ≤ 1)%nat
  ∧ paginate_questions (page_request (-1)) (sample_question <$> seqZ 1 25)
    = format <$> (sample_question <$> seqZ 6 10).
Proof.
  split; [lia|].
  rewrite (paginate_questions_negative_page (sample_question <$> seqZ 1 25) 1); [|lia].
  reflexivity.
Defined.

(** ** The categories mapping *)

Lemma categories_dict_acc (rows : list Category) (acc : gmap Z string) (i : Z) :
  foldl (λ d c, <[category_id c := category_type c]> d) acc rows !! i
    = match last (category_by_id i rows) with
      | Some c => Some (category_type c)
      | None => acc !! i
      end.
Proof.
  revert acc. induction rows as [|c rows IH]; intros acc; [done|].
  cbn [foldl]. rewrite IH. unfold category_by_id. rewrite filter_cons.
  destruct (decide (category_id c = i)) as [<-|Hne].
  - rewrite last_cons. destruct (last (filter _ rows)); [done|].
    by rewrite lookup_insert_eq.
  - destruct (last (filter _ rows)); [done|]. by rewrite lookup_insert_ne.
Qed.

(** X4.  [get_categories] always answers, leaves the database as it is, and
    its mapping sends an id to the type of the last category stored under
    that id (to nothing when no category has the id). *)
Theorem get_categories_mapping (db : database) :
  ∃ d : gmap Z string,
    get_categories db = (Return (RCategories d), db)
    ∧ ∀ i, d !! i = category_type <$> last (category_by_id i (categories db)).
Proof.
  exists (categories_dict (categories db)). split; [reflexivity|].
  intros i. unfold categories_dict. rewrite categories_dict_acc.
  by destruct (last _).
Qed.

(** ** The list of all questions *)

Lemma get_questions_run (req : request) (db : database) :
  get_questions req db
    = let selection := order_by_id (questions db) in
      match paginate_questions req selection with
      | [] => (Abort 404, db)
      | page =>
          (Return (RQuestions page (length selection)
                     (categories_dict (order_by_category_id (categories db)))), db)
      end.
Proof.
  unfold get_questions. view_step. cbn zeta.
  by destruct (paginate_questions req (order_by_id (questions db))).
Qed.

(** X5.  For a page number [page ≥ 1], [get_questions] answers with
    [abort(404)] exactly when the page starts at or after the end of the
    questions; in particular page 1 of a database that has a question is
    served. *)
Theorem get_questions_not_found_iff (page : Z) (db : database) :
  1 ≤ page →
  get_questions (page_request page) db = (Abort 404, db)
  ↔ Z.of_nat (length (questions db)) ≤ (page - 1) * 10.
Proof.
  intros Hp. rewrite get_questions_run. cbn zeta.
  pose proof (py_slice_length (format <$> order_by_id (questions db))
                ((page - 1) * 10) ((page - 1) * 10 + 10)) as Hlen.
  rewrite length_fmap, order_by_id_length in Hlen.
  specialize (Hlen ltac:(lia) ltac:(lia)).
  change (py_slice (format <$> order_by_id (questions db))
            ((page - 1) * 10) ((page - 1) * 10 + 10))
    with (paginate_questions (page_request page) (order_by_id (questions db))) in Hlen.
  destruct (paginate_questions (page_request page) (order_by_id (questions db)))
    as [|fq rest]; simpl in Hlen.
  - split; [lia | done].
  - split; [done | lia].
Qed.

Lemma get_questions_not_found_iff_witness :
  1 ≤ 1 ∧ get_questions (page_request 1) one_question ≠ (Abort 404, one_question).
Proof.
  split; [lia|]. intros Habort.
  apply (get_questions_not_found_iff 1 one_question) in Habort; [|lia].
  simpl in Habort. lia.
Defined.

#[local] Instance question_id_le_trans : Transitive question_id_le.
Proof. unfold question_id_le. intros a b c. lia. Qed.

#[local] Instance question_id_le_total : Total question_id_le.
Proof. unfold question_id_le. intros a b. lia. Qed.

Lemma paginate_questions_sorted (req : request) (selection : list Question) :
  StronglySorted question_id_le selection →
  StronglySorted f_id_le (paginate_questions req selection).
Proof.
  intros Hsorted. unfold paginate_questions.
  destruct (py_slice_take_drop (format <$> selection)
              ((default 1 (args_page req) - 1) * QUESTIONS_PER_PAGE)
              ((default 1 (args_page req) - 1) * QUESTIONS_PER_PAGE + QUESTIONS_PER_PAGE))
    as (j & k & -> & _).
  assert (Hall : StronglySorted f_id_le (format <$> selection)).
  { by apply (StronglySorted_fmap format question_id_le f_id_le). }
  rewrite <- (take_drop j (format <$> selection)) in Hall.
  apply StronglySorted_app_1_r in Hall.
  rewrite <- (take_drop k (drop j (format <$> selection))) in Hall.
  by apply StronglySorted_app_1_l in Hall.
Qed.

(** X6.  When [get_questions] answers with a page, the questions of the
    page are in ascending order of their ids whatever the storage order is,
    each is a stored question, the total is the number of all stored
    questions, and the database is left as it was. *)
Theorem get_questions_page (req : request) (db db' : database)
    (qs : list FormattedQuestion) (total : nat) (cats : gmap Z string) :
  get_questions req db = (Return (RQuestions qs total cats), db') →
  StronglySorted f_id_le qs
  ∧ (∀ fq, fq ∈ qs → ∃ q, q ∈ questions db ∧ fq = format q)
  ∧ total = length (questions db)
  ∧ db' = db.
Proof.
  rewrite get_questions_run. cbn zeta.
  destruct (paginate_questions req (order_by_id (questions db))) as [|fq rest] eqn:Hpage;
    [discriminate|].
  intros [= <- <- <- <-]. rewrite <- Hpage. split; [|split; [|split]].
  - apply paginate_questions_sorted. unfold order_by_id.
    apply StronglySorted_merge_sort; apply _.
  - intros x Hx.
    destruct (paginate_questions_split req (order_by_id (questions db)))
      as (before & after & Hrun).
    assert (Hin : x ∈ format <$> order_by_id (questions db)).
    { rewrite Hrun. apply elem_of_app. right. apply elem_of_app. by left. }
    apply list_elem_of_fmap in Hin as (q & -> & Hq). exists q. split; [|done].
    unfold order_by_id in Hq. by rewrite merge_sort_Permutation in Hq.
  - apply order_by_id_length.
  - done.
Qed.

Lemma get_questions_page_witness :
  get_questions (page_request 1) unordered_questions
    = (Return (RQuestions (format <$> [sample_question 1; sample_question 2; sample_question 3])
                 3 {[ 1 := "Science" ]}), unordered_questions)
  ∧ StronglySorted f_id_le
      (format <$> [sample_question 1; sample_question 2; sample_question 3]).
Proof.
  assert (Hrun : get_questions (page_request 1) unordered_questions
    = (Return (RQuestions (format <$> [sample_question 1; sample_question 2; sample_question 3])
                 3 {[ 1 := "Science" ]}), unordered_questions)) by reflexivity.
  split; [exact Hrun|].
  exact (proj1 (get_questions_page _ _ _ _ _ _ Hrun)).
Defined.

(** ** Searching and creating: which branch runs *)

Lemma add_question_search_run (req : request) (d : gmap string pyval)
    (term : string) (db : database) :
  d !! "searchTerm" = Some (VStr term) →
  term ≠ EmptyString →
  add_question req (VDict d) db
    = match filter_ilike ("%" +:+ term +:+ "%") (questions db) with
      | [] => (Abort 404, db)
      | found => (Return (RSearch (paginate_questions req found) (length found)), db)
      end.
Proof.
  intros Hd Hne. unfold add_question. view_step.
  rewrite Hd. cbn [default from_option Datatypes.id py_truthy].
  rewrite bool_decide_eq_false_2 by done. cbn [negb py_like_pattern].
  view_step. by destruct (filter_ilike _ (questions db)).
Qed.

(** X7.  A body whose [searchTerm] is truthy is a search, whatever else it
    carries: the database is left as it was, and the answer is neither the
    success of a creation nor [abort(422)]. *)
Theorem add_question_search_never_writes (req : request) (d : gmap string pyval)
    (db : database) :
  py_truthy (default VNone (d !! "searchTerm")) = true →
  ∃ r, add_question req (VDict d) db = (r, db)
       ∧ r ≠ Return RSuccess ∧ r ≠ Abort 422.
Proof.
  intros Hterm. unfold add_question. view_step. rewrite Hterm.
  destruct (py_like_pattern (default VNone (d !! "searchTerm"))) as [pat|c|e] eqn:Hpat.
  - view_step. destruct (filter_ilike pat (questions db)) as [|q found].
    + by exists (Abort 404).
    + by eexists (Return (RSearch _ _)).
  - by destruct (default VNone (d !! "searchTerm")).
  - exists (Raise e). by rewrite bind_lift_Raise.
Qed.

Lemma add_question_search_never_writes_witness :
  add_question (page_request 1)
    (VDict (<["searchTerm" := VStr "zebra"]>
             (<["question" := VStr "Why?"]>
               (<["answer" := VStr "Because"]>
                 (<["category" := VInt 1]> {[ "difficulty" := VInt 1 ]})))))
    one_question
  = (Abort 404, one_question).
Proof.
  destruct (add_question_search_never_writes (page_request 1)
    (<["searchTerm" := VStr "zebra"]>
      (<["question" := VStr "Why?"]>
        (<["answer" := VStr "Because"]>
          (<["category" := VInt 1]> {[ "difficulty" := VInt 1 ]}))))
    one_question) as (r & Hrun & _); [reflexivity|].
  rewrite Hrun. f_equal.
  assert (Hfst : fst (r, one_question) = Abort 404) by (by rewrite <- Hrun).
  exact Hfst.
Defined.

(** X8.  A truthy [searchTerm] that is not a string (a number, [true], a
    list, an object) makes the concatenation with ['%'] raise a [TypeError]
    outside the [try]: the exception is not turned into [abort(422)], and
    nothing is written. *)
Theorem add_question_search_term_not_str (req : request) (d : gmap string pyval)
    (v : pyval) (db : database) :
  d !! "searchTerm" = Some v →
  py_truthy v = true →
  (∀ s, v ≠ VStr s) →
  add_question req (VDict d) db = (Raise TypeError, db).
Proof.
  intros Hd Htrue Hstr. unfold add_question. view_step.
  rewrite Hd. cbn [default from_option Datatypes.id]. rewrite Htrue.
  destruct v; try reflexivity. by destruct (Hstr s).
Qed.

Lemma add_question_search_term_not_str_witness :
  add_question (page_request 1) (VDict {[ "searchTerm" := VInt 7 ]}) one_question
    = (Raise TypeError, one_question).
Proof.
  apply (add_question_search_term_not_str _ _ (VInt 7)).
  - reflexivity.
  - reflexivity.
  - discriminate.
Defined.

(** X9.  A JSON body that is not an object (a list, a string, a number,
    [null]) has no [get]: [add_question] and [play_quizzes] raise an
    [AttributeError] before they read or write anything. *)
Theorem body_not_an_object (req : request) (entropy : nat) (body : pyval)
    (db : database) :
  (∀ d, body ≠ VDict d) →
  add_question req body db = (Raise AttributeError, db)
  ∧ play_quizzes entropy body db = (Raise AttributeError, db).
Proof.
  intros Hbody. destruct body; try (split; reflexivity). by destruct (Hbody d).
Qed.

Lemma body_not_an_object_witness :
  add_question (page_request 1) (VList [VStr "who"]) one_question
    = (Raise AttributeError, one_question)
  ∧ play_quizzes 0 (VList [VStr "who"]) one_question
    = (Raise AttributeError, one_question).
Proof. apply body_not_an_object. discriminate. Defined.

Lemma lower_nil_inv (s : string) : lower s = [] → s = EmptyString.
Proof. by destruct s. Qed.

(** X10.  The search does not look at the case of the term: two terms that
    are equal once their ASCII letters are lowered get the same answer, with
    the rest of the body and the database the same. *)
Theorem add_question_search_term_case (req : request) (d : gmap string pyval)
    (t1 t2 : string) (db : database) :
  lower t1 = lower t2 →
  add_question req (VDict (<["searchTerm" := VStr t1]> d)) db
    = add_question req (VDict (<["searchTerm" := VStr t2]> d)) db.
Proof.
  intros Hlow. destruct (decide (t1 = EmptyString)) as [->|Hne1].
  - symmetry in Hlow. apply lower_nil_inv in Hlow. by subst t2.
  - assert (Hne2 : t2 ≠ EmptyString).
    { intros ->. by apply lower_nil_inv in Hlow. }
    rewrite !(add_question_search_run req _ _ db (lookup_insert_eq _ _ _)) by done.
    replace (filter_ilike ("%" +:+ t2 +:+ "%") (questions db))
      with (filter_ilike ("%" +:+ t1 +:+ "%") (questions db)); [done|].
    unfold filter_ilike. apply list_filter_iff. intros q.
    unfold ilike. by rewrite !lower_app, Hlow.
Qed.

Lemma add_question_search_term_case_witness :
  add_question (page_request 1) (VDict (<["searchTerm" := VStr "WHO"]> ∅)) one_question
    = (Return (RSearch [format (sample_question 5)] 1), one_question).
Proof.
  rewrite (add_question_search_term_case _ ∅ "WHO" "who"); reflexivity.
Defined.

(** X11.  A search that has matches never answers [abort(404)] for its
    page: past the last match it answers with an empty page and the number
    of matches, where [get_questions] would answer [abort(404)]. *)
Theorem add_question_search_past_the_end (req : request) (d : gmap string pyval)
    (term : string) (db : database) :
  d !! "searchTerm" = Some (VStr term) →
  term ≠ EmptyString →
  filter_ilike ("%" +:+ term +:+ "%") (questions db) ≠ [] →
  past_the_end req (length (filter_ilike ("%" +:+ term +:+ "%") (questions db))) →
  add_question req (VDict d) db
    = (Return (RSearch [] (length (filter_ilike ("%" +:+ term +:+ "%") (questions db)))),
       db).
Proof.
  intros Hd Hne Hfound Hpast. rewrite (add_question_search_run req d term db) by done.
  destruct (filter_ilike _ (questions db)) as [|q found] eqn:Hf; [done|].
  cbn beta iota zeta. by rewrite paginate_questions_past_the_end by (by right).
Qed.

Lemma add_question_search_past_the_end_witness :
  add_question (page_request 2) (search_body "who") one_question
    = (Return (RSearch [] 1), one_question)
  ∧ get_questions (page_request 2) one_question = (Abort 404, one_question).
Proof.
  split; [|reflexivity].
  apply (add_question_search_past_the_end (page_request 2) _ "who" one_question).
  - reflexivity.
  - discriminate.
  - discriminate.
  - unfold past_the_end, QUESTIONS_PER_PAGE. simpl. lia.
Defined.

Lemma like_match_only_percent (p s : list ascii) :
  p ≠ [] → forallb (λ c, Ascii.eqb c "%") p = true → like_match p s = true.
Proof.
  induction p as [|c p IH]; intros Hne Hall; [done|].
  simpl in Hall. apply andb_true_iff in Hall as [Hc Hall].
  apply Ascii.eqb_eq in Hc as ->.
  destruct p as [|c' p]; [apply like_match_trailing_percent|].
  rewrite like_match_percent, IH by done. reflexivity.
Qed.

Lemma filter_all {A} (P : A → Prop) `{∀ x, Decision (P x)} (rows : list A) :
  (∀ x, P x) → filter P rows = rows.
Proof.
  intros HP. induction rows as [|x rows IH]; [done|].
  by rewrite filter_cons_True, IH.
Qed.

Lemma lower_only_percent (term : string) :
  only_percent term = true →
  forallb (λ c, Ascii.eqb c "%") (lower term) = true.
Proof.
  unfold only_percent, lower.
  induction (list_ascii_of_string term) as [|c l IH]; [done|].
  simpl. rewrite !andb_true_iff. intros [Hc Hl]. split; [|by apply IH].
  apply Ascii.eqb_eq in Hc as ->. reflexivity.
Qed.

(** X12.  A term made of [%] alone matches every text: on a database that
    has a question, the search answers with the requested page of all the
    stored questions and their number. *)
Theorem add_question_search_only_percent (req : request) (term : string)
    (db : database) :
  term ≠ EmptyString →
  only_percent term = true →
  questions db ≠ [] →
  add_question req (search_body term) db
    = (Return (RSearch (paginate_questions req (questions db))
                       (length (questions db))), db).
Proof.
  intros Hne Hpct Hrows. unfold search_body.
  rewrite (add_question_search_run req _ term db) by done.
  assert (Hall : filter_ilike ("%" +:+ term +:+ "%") (questions db) = questions db).
  { unfold filter_ilike. apply filter_all. intros q. unfold ilike.
    apply like_match_only_percent.
    - rewrite !lower_app. discriminate.
    - rewrite !lower_app, !forallb_app. rewrite (lower_only_percent term Hpct).
      reflexivity. }
  rewrite Hall. by destruct (questions db).
Qed.

Lemma add_question_search_only_percent_witness :
  add_question (page_request 1) (search_body "%") three_questions
    = (Return (RSearch (format <$> [sample_question 1; sample_question 2; sample_question 3]) 3),
       three_questions).
Proof.
  rewrite (add_question_search_only_percent (page_request 1) "%" three_questions).
  - reflexivity.
  - discriminate.
  - reflexivity.
  - discriminate.
Defined.

(** ** Questions of a category *)

(** X13.  For an id that no category has, [questions_in_a_category] answers
    with [abort(404)] and leaves the database as it was, whatever questions
    are stored under that id. *)
Theorem questions_in_a_category_unknown (req : request) (i : Z) (db : database) :
  (∀ c, c ∈ categories db → category_id c ≠ i) →
  questions_in_a_category req i db = (Abort 404, db).
Proof.
  intros Hno. unfold questions_in_a_category. view_step.
  unfold category_by_id. by rewrite filter_by_key_unknown.
Qed.

Lemma questions_in_a_category_unknown_witness :
  questions_in_a_category (page_request 1) 999
    (mkDatabase [science] [mkQuestion 1 "Why?" "Because" (CatStr "999") 1] VarcharColumn)
  = (Abort 404, mkDatabase [science] [mkQuestion 1 "Why?" "Because" (CatStr "999") 1] VarcharColumn).
Proof.
  apply questions_in_a_category_unknown. intros c Hc.
  apply list_elem_of_singleton in Hc as ->. discriminate.
Defined.

(** X14.  When [questions_in_a_category] answers for the id [i], a category
    with that id and the returned name is stored, every question of the page
    is a stored question whose category is [i] read in the type of the column
    (the text [str(i)] in a text column, the integer [i] in an integer
    column), the total is the number of the stored questions of that
    category, the page is no longer than the total, and the database is left
    as it was. *)
Theorem questions_in_a_category_page (req : request) (i : Z) (db db' : database)
    (qs : list FormattedQuestion) (total : nat) (name : string) :
  questions_in_a_category req i db = (Return (RCategoryQuestions qs total name), db') →
  (∃ c, c ∈ categories db ∧ category_id c = i ∧ category_type c = name)
  ∧ (∀ fq, fq ∈ qs →
       f_category fq = category_value (category_column db) i
       ∧ ∃ q, q ∈ questions db ∧ fq = format q)
  ∧ total = length (questions_of_category i db)
  ∧ (length qs ≤ total)%nat
  ∧ db' = db.
Proof.
  unfold questions_in_a_category. view_step.
  destruct (category_by_id i (categories db)) as [|c [|c' rest]] eqn:Hcat;
    [discriminate| |discriminate].
  cbn [one_or_none]. view_step. rewrite bind_execute, filter_by_category_str.
  view_step. cbn zeta. intros [= <- <- <- <-].
  destruct (paginate_questions_split req (questions_of_category i db))
    as (before & after & Hsplit).
  split; [|split; [|split; [|split]]]; [| |done| |done].
  - exists c. assert (Hc : c ∈ category_by_id i (categories db)) by (rewrite Hcat; left).
    apply list_elem_of_filter in Hc as [Hid Hc]. done.
  - intros fq Hfq.
    assert (Hin : fq ∈ format <$> questions_of_category i db).
    { rewrite Hsplit. apply elem_of_app. right. apply elem_of_app. by left. }
    apply list_elem_of_fmap in Hin as (q & -> & Hq).
    apply list_elem_of_filter in Hq as [Hq1 Hq2]. split; [done|]. by exists q.
  - apply (f_equal length) in Hsplit.
    rewrite length_fmap, !length_app in Hsplit. lia.
Qed.

Lemma questions_in_a_category_page_witness :
  questions_in_a_category (page_request 1) 1
    (mkDatabase [science]
       [sample_question 1; mkQuestion 2 "Why?" "Because" (CatStr "2") 1] VarcharColumn)
  = (Return (RCategoryQuestions [format (sample_question 1)] 1 "Science"),
     mkDatabase [science]
       [sample_question 1; mkQuestion 2 "Why?" "Because" (CatStr "2") 1] VarcharColumn)
  ∧ 1%nat = length (questions_of_category 1
      (mkDatabase [science]
         [sample_question 1; mkQuestion 2 "Why?" "Because" (CatStr "2") 1] VarcharColumn)).
Proof.
  assert (Hrun : questions_in_a_category (page_request 1) 1
    (mkDatabase [science]
       [sample_question 1; mkQuestion 2 "Why?" "Because" (CatStr "2") 1] VarcharColumn)
  = (Return (RCategoryQuestions [format (sample_question 1)] 1 "Science"),
     mkDatabase [science]
       [sample_question 1; mkQuestion 2 "Why?" "Because" (CatStr "2") 1] VarcharColumn))
    by reflexivity.
  split; [exact Hrun|].
  destruct (questions_in_a_category_page _ _ _ _ _ _ _ Hrun) as (_ & _ & Htotal & _).
  exact Htotal.
Defined.

(** ** The quiz, draw by draw *)

(** X15.  When the pool is not empty and every question of it was played,
    every draw ends without a question: the view returns [None], it does not
    abort, and the database is left as it was. *)
Theorem play_quizzes_exhausted (entropy : nat) (i : pyval) (previous : list Z)
    (db : database) (pool : list Question) :
  quiz_pool i db = Return pool →
  pool ≠ [] →
  (∀ q, q ∈ pool → id q ∈ previous) →
  play_quizzes entropy (quiz_body i previous) db = (Return None, db).
Proof.
  intros Hpool Hne Hall. rewrite play_quizzes_quiz_body, Hpool.
  assert (Hlt : (randint_below entropy (length pool) < length pool)%nat).
  { apply Nat.mod_upper_bound. by intros ?%nil_length_inv. }
  apply lookup_lt_is_Some_2 in Hlt as [q Hq]. rewrite Hq.
  rewrite bool_decide_eq_true_2; [done|].
  apply Hall. by eapply list_elem_of_lookup_2.
Qed.

Lemma play_quizzes_exhausted_witness :
  quiz_pool (VInt 0) two_questions = Return [sample_question 1; sample_question 2]
  ∧ play_quizzes 1 (quiz_body (VInt 0) [2; 1]) two_questions
    = (Return None, two_questions).
Proof.
  split; [reflexivity|].
  apply (play_quizzes_exhausted 1 (VInt 0) [2; 1] two_questions
           [sample_question 1; sample_question 2]); [reflexivity|discriminate|].
  intros q Hq.
  repeat (apply elem_of_cons in Hq as [->|Hq]); [compute_done..|].
  by apply elem_of_nil in Hq.
Defined.

(** X16.  Every question of the pool that was not played can be drawn: the
    draw of its index returns it, and leaves the database as it was. *)
Theorem play_quizzes_reaches_unplayed (k : nat) (i : pyval) (previous : list Z)
    (db : database) (pool : list Question) (q : Question) :
  quiz_pool i db = Return pool →
  pool !! k = Some q →
  id q ∉ previous →
  play_quizzes k (quiz_body i previous) db
    = (Return (Some (RQuiz (format q))), db).
Proof.
  intros Hpool Hq Hnew. rewrite play_quizzes_quiz_body, Hpool.
  unfold randint_below. rewrite Nat.mod_small by (by eapply lookup_lt_Some).
  rewrite Hq. by rewrite bool_decide_eq_false_2.
Qed.

Lemma play_quizzes_reaches_unplayed_witness :
  play_quizzes 2 (quiz_body (VInt 0) [1; 2]) three_questions
    = (Return (Some (RQuiz (format (sample_question 3)))), three_questions).
Proof.
  apply (play_quizzes_reaches_unplayed 2 (VInt 0) [1; 2] three_questions
           [sample_question 1; sample_question 2; sample_question 3]);
    [reflexivity | reflexivity |].
  compute_done.
Defined.

(** X17.  A question the quiz answers with is a stored question, was not
    played, and, when the category id is not 0, its category is the very
    value the database read the body's id as; the database is left as it
    was. *)
Theorem play_quizzes_answer (entropy : nat) (i : pyval) (previous : list Z)
    (db db' : database) (r : response) :
  play_quizzes entropy (quiz_body i previous) db = (Return (Some r), db') →
  ∃ q, r = RQuiz (format q)
       ∧ q ∈ questions db
       ∧ (id q ∉ previous)
       ∧ (py_eq_int i 0 = false →
          bind_category (category_column db) i = Return (Some (category q)))
       ∧ db' = db.
Proof.
  rewrite play_quizzes_quiz_body.
  destruct (quiz_pool i db) as [pool|c|e] eqn:Hpool; [|done..].
  destruct (pool !! _) as [q|] eqn:Hq; [|done].
  case_bool_decide as Hin; [done|].
  intros [= <- <-]. exists q. apply list_elem_of_lookup_2 in Hq.
  unfold quiz_pool in Hpool. destruct (py_eq_int i 0).
  - injection Hpool as <-. by repeat split.
  - unfold filter_by_category in Hpool.
    destruct (bind_category (category_column db) i) as [[c|]|c|e]; try discriminate.
    + injection Hpool as <-. apply list_elem_of_filter in Hq as [Hcat Hq].
      repeat split; try done. intros _. by rewrite Hcat.
    + injection Hpool as <-. by apply elem_of_nil in Hq.
Qed.

Lemma play_quizzes_answer_witness :
  ∃ q, RQuiz (format (sample_question 5)) = RQuiz (format q)
       ∧ q ∈ questions one_question
       ∧ (id q ∉ [1; 2])
       ∧ (py_eq_int (VStr "1") 0 = false →
          bind_category (category_column one_question) (VStr "1")
          = Return (Some (category q)))
       ∧ one_question = one_question.
Proof.
  apply (play_quizzes_answer 0 (VStr "1") [1; 2] one_question one_question).
  reflexivity.
Defined.

(** X18.  With nothing played yet and a pool that is not empty, every draw
    is answered with a question of the pool. *)
Theorem play_quizzes_first_question (entropy : nat) (i : pyval) (db : database)
    (pool : list Question) :
  quiz_pool i db = Return pool →
  pool ≠ [] →
  ∃ q, q ∈ pool
       ∧ play_quizzes entropy (quiz_body i []) db
         = (Return (Some (RQuiz (format q))), db).
Proof.
  intros Hpool Hne. rewrite play_quizzes_quiz_body, Hpool.
  destruct (pool !! _) as [q|] eqn:Hq.
  - exists q. split; [by eapply list_elem_of_lookup_2|].
    rewrite bool_decide_eq_false_2; [done|]. apply not_elem_of_nil.
  - apply lookup_ge_None in Hq. unfold randint_below in Hq.
    assert (length pool ≠ 0%nat) as Hpos
      by (by intros ?%nil_length_inv).
    pose proof (Nat.mod_upper_bound entropy _ Hpos). lia.
Qed.

Lemma play_quizzes_first_question_witness :
  ∃ q, q ∈ [sample_question 1; sample_question 2; sample_question 3]
       ∧ play_quizzes 4 (quiz_body (VInt 0) []) three_questions
         = (Return (Some (RQuiz (format q))), three_questions).
Proof.
  apply (play_quizzes_first_question 4 (VInt 0) three_questions);
    [reflexivity | discriminate].
Defined.

(** X19.  A body without [quiz_category] (or with [null] there) makes
    [None['id']] raise a [TypeError]: the request is not answered with an
    [abort], and the database is left as it was. *)
Theorem play_quizzes_missing_category (entropy : nat) (d : gmap string pyval)
    (db : database) :
  default VNone (d !! "quiz_category") = VNone →
  play_quizzes entropy (VDict d) db = (Raise TypeError, db).
Proof.
  intros Hd. unfold play_quizzes. view_step. by rewrite Hd.
Qed.

Lemma play_quizzes_missing_category_witness :
  play_quizzes 0 (VDict {[ "previous_questions" := VList [] ]}) one_question
    = (Raise TypeError, one_question).
Proof. apply play_quizzes_missing_category. reflexivity. Defined.

(** X21.  A [quiz_category] object without [id] makes the subscript raise a
    [KeyError], whatever else the body holds; the database is left as it
    was. *)
Theorem play_quizzes_missing_id (entropy : nat) (d qc : gmap string pyval)
    (db : database) :
  d !! "quiz_category" = Some (VDict qc) →
  qc !! "id" = None →
  play_quizzes entropy (VDict d) db = (Raise KeyError, db).
Proof.
  intros Hd Hqc. unfold play_quizzes. view_step. rewrite Hd.
  cbn [default from_option Datatypes.id py_getitem]. by rewrite Hqc.
Qed.

Lemma play_quizzes_missing_id_witness :
  play_quizzes 0 (VDict {[ "quiz_category" := VDict {[ "type" := VStr "Science" ]} ]})
      one_question
    = (Raise KeyError, one_question).
Proof.
  apply (play_quizzes_missing_id 0 _ {[ "type" := VStr "Science" ]} one_question);
    reflexivity.
Defined.

(** X20.  A body that gives a category id but no [previous_questions] is
    answered with [abort(404)] only when the query returns an empty pool;
    when the pool has a question, the membership test on [None] raises a
    [TypeError]; and when the database refuses the query, its exception comes
    first. *)
Theorem play_quizzes_missing_previous (entropy : nat) (d qc : gmap string pyval)
    (i : pyval) (db : database) :
  d !! "quiz_category" = Some (VDict qc) →
  qc !! "id" = Some i →
  d !! "previous_questions" = None →
  play_quizzes entropy (VDict d) db
    = (match quiz_pool i db with
       | Return [] => Abort 404
       | Return _ => Raise TypeError
       | Abort c => Abort c
       | Raise e => Raise e
       end, db).
Proof.
  intros Hd Hqc Hprev. unfold play_quizzes. view_step.
  rewrite Hd, Hprev. cbn [default from_option Datatypes.id py_getitem].
  rewrite Hqc. view_step. rewrite bind_if, bind_query, bind_execute. unfold quiz_pool.
  assert (Hdraw : ∀ pool : list Question,
    (if (length pool =? 0)%nat then abort 404 else
     let randomIndex := randint_below entropy (length pool) in
     match pool !! randomIndex with
     | None => lift (Raise IndexError)
     | Some questionToPlay =>
         played ← lift (py_in (id questionToPlay) VNone);
         if negb played
         then mret (Some (RQuiz (format questionToPlay)))
         else mret None
     end) db
    = (match pool with [] => Abort 404 | _ => Raise TypeError end, db)).
  { intros [|q pool]; [reflexivity|]. cbn zeta.
    destruct ((q :: pool) !! _) eqn:Hq; [reflexivity|].
    apply lookup_ge_None in Hq. unfold randint_below in Hq.
    pose proof (Nat.mod_upper_bound entropy (length (q :: pool)) ltac:(done)). lia. }
  destruct (py_eq_int i 0); [apply Hdraw|].
  destruct (filter_by_category _ i (questions db)); [apply Hdraw|done..].
Qed.

Lemma play_quizzes_missing_previous_witness :
  play_quizzes 0 (VDict {[ "quiz_category" := VDict {[ "id" := VInt 0 ]} ]}) one_question
    = (Raise TypeError, one_question)
  ∧ play_quizzes 0 (VDict {[ "quiz_category" := VDict {[ "id" := VInt 1 ]} ]}) one_question
    = (Raise ProgrammingError, one_question).
Proof.
  split.
  - apply (play_quizzes_missing_previous 0 _ {[ "id" := VInt 0 ]} (VInt 0) one_question);
      reflexivity.
  - apply (play_quizzes_missing_previous 0 _ {[ "id" := VInt 1 ]} (VInt 1) one_question);
      reflexivity.
Defined.

(** ** All handlers together *)

Lemma get_categories_outcome (db : database) (r : result response) (db' : database) :
  get_categories db = (r, db') → db' = db ∧ ∀ c, r ≠ Abort c.
Proof. intros [= <- <-]. by split. Qed.

Lemma get_questions_outcome (req : request) (db db' : database) (r : result response) :
  get_questions req db = (r, db') → db' = db ∧ ∀ c, r = Abort c → c = 404.
Proof.
  rewrite get_questions_run. cbn zeta.
  destruct (paginate_questions req _); intros [= <- <-]; split; try done;
    by intros c [= <-].
Qed.

Lemma delete_a_question_outcome (i : Z) (db db' : database) (r : result response) :
  delete_a_question i db = (r, db') → ∀ c, r = Abort c → c = 404.
Proof.
  unfold delete_a_question. view_step.
  destruct (question_by_id i (questions db)) as [|q [|q' rest]];
    intros [= <- <-] c; by intros [= <-].
Qed.

Lemma add_question_outcome (req : request) (body : pyval) (db db' : database)
    (r : result response) :
  add_question req body db = (r, db') → ∀ c, r = Abort c → c = 404 ∨ c = 422.
Proof.
  unfold add_question. destruct body; try (by intros [= <- <-] c).
  view_step. destruct (py_truthy _).
  - destruct (py_like_pattern _) as [pat|c'|e] eqn:Hpat.
    + view_step. destruct (filter_ilike pat (questions db));
        intros [= <- <-] c; intros [= <-]; auto.
    + by destruct (default VNone (d !! "searchTerm")).
    + by intros [= <- <-] c.
  - unfold try_except, mbind, view_bind, commit.
    destruct (Question_insert _ _ _ _ db); intros [= <- <-] c; intros [= <-]; auto.
Qed.

Lemma questions_in_a_category_outcome (req : request) (i : Z) (db db' : database)
    (r : result response) :
  questions_in_a_category req i db = (r, db') →
  db' = db ∧ ∀ c, r = Abort c → c = 404.
Proof.
  unfold questions_in_a_category. view_step.
  destruct (category_by_id i (categories db)) as [|q [|q' rest]]; cbn [one_or_none].
  - intros [= <- <-]. split; [done|]. by intros c [= <-].
  - view_step. rewrite bind_execute, filter_by_category_str.
    intros [= <- <-]. by split.
  - intros [= <- <-]. by split.
Qed.

Lemma play_quizzes_outcome (entropy : nat) (body : pyval) (db db' : database)
    (r : result (option response)) :
  play_quizzes entropy body db = (r, db') →
  db' = db ∧ ∀ c, r = Abort c → c = 404.
Proof.
  unfold play_quizzes. destruct body; try (by intros [= <- <-]).
  view_step. destruct (py_getitem _ "id") as [i|c'|e] eqn:Hid.
  - view_step. rewrite bind_if, bind_query, bind_execute.
    assert (Hdraw : ∀ pool : list Question, ∀ out,
      (if (length pool =? 0)%nat then abort 404 else
       let randomIndex := randint_below entropy (length pool) in
       match pool !! randomIndex with
       | None => lift (Raise IndexError)
       | Some questionToPlay =>
           played ← lift (py_in (id questionToPlay)
                            (default VNone (d !! "previous_questions")));
           if negb played
           then mret (Some (RQuiz (format questionToPlay)))
           else mret None
       end) db = out →
      out.2 = db ∧ ∀ c, out.1 = Abort c → c = 404).
    { intros pool out <-. destruct (length pool =? 0)%nat.
      - split; [done|]. by intros c [= <-].
      - cbn zeta. destruct (pool !! _) as [q|]; [|by split].
        destruct (py_in (id q) _) as [[]|c'|e] eqn:Hin; try (by split).
        unfold py_in in Hin. by repeat case_match. }
    intros Hrun. destruct (py_eq_int i 0).
    + by apply Hdraw in Hrun.
    + destruct (filter_by_category _ i (questions db)) as [pool|c'|e] eqn:Hpool.
      * by apply Hdraw in Hrun.
      * unfold filter_by_category in Hpool.
        destruct (bind_category _ i) as [?|c''|?] eqn:Hbind; try discriminate.
        unfold bind_category in Hbind. by repeat case_match.
      * injection Hrun as <- <-. by split.
  - unfold py_getitem in Hid. by repeat case_match.
  - by intros [= <- <-].
Qed.

(** X22.  Whatever the request, a status a view function aborts with is
    404 or 422, and a handler is registered for it: the handler answers with
    that status and with a body whose [success] is false and whose [error] is
    the status. *)
Theorem aborts_have_handlers (req : request) (i : Z) (entropy : nat)
    (body : pyval) (db : database) (c : Z) :
  fst (get_categories db) = Abort c
  ∨ fst (get_questions req db) = Abort c
  ∨ fst (delete_a_question i db) = Abort c
  ∨ fst (add_question req body db) = Abort c
  ∨ fst (questions_in_a_category req i db) = Abort c
  ∨ fst (play_quizzes entropy body db) = Abort c →
  (c = 404 ∨ c = 422)
  ∧ ∃ b, errorhandler c = Some (b, c) ∧ eb_success b = false ∧ eb_error b = c.
Proof.
  intros Habort.
  assert (Hc : c = 404 ∨ c = 422).
  { destruct Habort as [H|[H|[H|[H|[H|H]]]]].
    - destruct (get_categories db) as [r db'] eqn:Hrun.
      apply get_categories_outcome in Hrun as [_ Hno]. by destruct (Hno c).
    - destruct (get_questions req db) as [r db'] eqn:Hrun.
      apply get_questions_outcome in Hrun as [_ Hc]. left. by apply Hc.
    - destruct (delete_a_question i db) as [r db'] eqn:Hrun.
      left. by eapply delete_a_question_outcome.
    - destruct (add_question req body db) as [r db'] eqn:Hrun.
      by eapply add_question_outcome.
    - destruct (questions_in_a_category req i db) as [r db'] eqn:Hrun.
      apply questions_in_a_category_outcome in Hrun as [_ Hc]. left. by apply Hc.
    - destruct (play_quizzes entropy body db) as [r db'] eqn:Hrun.
      apply play_quizzes_outcome in Hrun as [_ Hc]. left. by apply Hc. }
  split; [done|]. destruct Hc as [-> | ->]; by eexists.
Qed.

Lemma aborts_have_handlers_witness :
  fst (get_questions (page_request 2) one_question) = Abort 404
  ∧ ∃ b, errorhandler 404 = Some (b, 404) ∧ eb_success b = false ∧ eb_error b = 404.
Proof.
  split; [reflexivity|].
  apply (aborts_have_handlers (page_request 2) 9 0 VNone one_question 404).
  right. left. reflexivity.
Defined.

(** X23.  [get_categories], [get_questions], [questions_in_a_category] and
    [play_quizzes] never change the database, whatever they are given and
    however they end. *)
Theorem reading_handlers_keep_database (req : request) (i : Z) (entropy : nat)
    (body : pyval) (db : database) :
  snd (get_categories db) = db
  ∧ snd (get_questions req db) = db
  ∧ snd (questions_in_a_category req i db) = db
  ∧ snd (play_quizzes entropy body db) = db.
Proof.
  split; [reflexivity|]. split; [|split].
  - destruct (get_questions req db) as [r db'] eqn:Hrun.
    by apply get_questions_outcome in Hrun as [-> _].
  - destruct (questions_in_a_category req i db) as [r db'] eqn:Hrun.
    by apply questions_in_a_category_outcome in Hrun as [-> _].
  - destruct (play_quizzes entropy body db) as [r db'] eqn:Hrun.
    by apply play_quizzes_outcome in Hrun as [-> _].
Qed.

(** X24.  A body whose [searchTerm] is missing or falsy is a creation: it
    is answered with success or, for any exception of the insertion, with
    [abort(422)] and the database as it was; never with [abort(404)] and
    never with an uncaught exception. *)
Theorem add_question_creation_outcome (req : request) (d : gmap string pyval)
    (db : database) :
  py_truthy (default VNone (d !! "searchTerm")) = false →
  (∃ db', add_question req (VDict d) db = (Return RSuccess, db'))
  ∨ add_question req (VDict d) db = (Abort 422, db).
Proof.
  intros Hterm. unfold add_question. view_step. rewrite Hterm.
  unfold try_except, mbind, view_bind, commit.
  destruct (Question_insert _ _ _ _ db) as [db'|c|e]; [left; by exists db'|by right..].
Qed.

Lemma add_question_creation_outcome_witness :
  (∃ db', add_question (page_request 1)
            (VDict (<["question" := VStr "Why?"]>
                     (<["answer" := VStr "Because"]>
                       (<["category" := VInt 1]> {[ "difficulty" := VInt 1 ]}))))
            one_question = (Return RSuccess, db'))
  ∨ add_question (page_request 1)
      (VDict (<["question" := VStr "Why?"]>
               (<["answer" := VStr "Because"]>
                 (<["category" := VInt 1]> {[ "difficulty" := VInt 1 ]}))))
      one_question = (Abort 422, one_question).
Proof. apply add_question_creation_outcome. reflexivity. Defined.
